(** * SVG-to-Code converter: the page scripts as event-driven state machines

    Two scripts are embedded here:
    - [Shared]: [script.js], the script shared by the SVG-to-code page and
      the image-to-SVG page (it tells the pages apart by the elements it
      finds);
    - [Standalone]: the self-contained script of the SVG-to-code page
      (the second source file).

    The DOM is modelled by the properties the scripts read and write: an
    element's [classList] is a finite set of tokens, [localStorage] a finite
    map, [textContent] a string.  A text area's [value] is kept as its
    getter returns it: the platform normalises the newlines of what is
    assigned (every CR LF pair and every other CR becomes LF).  For
    [innerHTML], which the scripts assign and never read, the markup last
    assigned is kept; what the element would give back on reading is the
    serialisation of the parsed markup and is not modelled.  An element
    looked up with [getElementById] that the script tests before use is an
    [option].  A JavaScript string is modelled by the string of its UTF-8
    bytes, so the text a [FileReader] delivers for a UTF-8 file is the
    file's content.  Asynchronous completions (file reads, image decoding,
    the clipboard, timers, dialog buttons) are events that carry what the
    platform delivers; the callbacks still pending are kept in the state.
    [DOMParser] is a parameter of the shared script. *)

From Stdlib Require Import Ascii String.
From stdpp Require Import base strings gmap list pretty.

#[local] Set Warnings "-clear-no-such-hyp,-register-all".

(** ** DOM primitives *)

Module Dom.

(** [DOMTokenList]: the ordered set behind [classList]; only membership is
    observable to the scripts. *)
Definition classList_contains (token : string) (l : gset string) : bool :=
  bool_decide (token ∈ l).

Definition classList_add (token : string) (l : gset string) : gset string :=
  {[ token ]} ∪ l.

Definition classList_remove (token : string) (l : gset string) : gset string :=
  l ∖ {[ token ]}.

(** [classList.toggle(token)]: returns the new list and whether the token
    is now present. *)
Definition classList_toggle (token : string) (l : gset string)
  : gset string * bool :=
  if classList_contains token l
  then (classList_remove token l, false)
  else (classList_add token l, true).

(** [classList.toggle(token, force)]. *)
Definition classList_toggle_force (token : string) (force : bool)
    (l : gset string) : gset string :=
  if force then classList_add token l else classList_remove token l.

(** The newline normalisation of a text area's [value]: every CR LF pair
    becomes one LF, then every CR left becomes LF. *)
Fixpoint normalizeNewlines (s : string) : string :=
  match s with
  | EmptyString => EmptyString
  | String c rest =>
      if Ascii.eqb c "013"%char
      then String "010"%char
             match rest with
             | String c' rest' =>
                 if Ascii.eqb c' "010"%char
                 then normalizeNewlines rest'
                 else normalizeNewlines rest
             | EmptyString => EmptyString
             end
      else String c (normalizeNewlines rest)
  end.

(** A text without CR. *)
Definition hasNoCR (s : string) : bool :=
  forallb (fun c => negb (Ascii.eqb c "013"%char)) (list_ascii_of_string s).

(** [a || b] on strings: the empty string is falsy. *)
Definition js_or (a b : string) : string :=
  if String.eqb a "" then b else a.

(** [!s] on a string. *)
Definition js_not (a : string) : bool := String.eqb a "".

(** The double quote and the line feed, as one-character strings. *)
Definition dquote : string := String "034"%char EmptyString.
Definition newline : string := String "010"%char EmptyString.

(** A parsed XML document, as far as [querySelector] with a type selector
    can see it: element names and nesting. *)
Inductive Node : Type :=
| Element (localName : string) (children : list Node).

(** [node.querySelector(tag)] for a type selector: the first element in
    document order, the node itself included, whose name is [tag]. *)
Fixpoint querySelector (tag : string) (n : Node) : option Node :=
  match n with
  | Element nm kids =>
      if String.eqb nm tag then Some n
      else (fix first (l : list Node) : option Node :=
              match l with
              | [] => None
              | k :: rest =>
                  match querySelector tag k with
                  | Some hit => Some hit
                  | None => first rest
                  end
              end) kids
  end.

(** The built-in [encodeURIComponent]. A string stands for its UTF-8
    bytes: the unreserved ASCII characters are kept and every other byte is
    written [%XX] with upper-case hexadecimal digits. *)
Definition uriUnreserved (c : ascii) : bool :=
  let n := nat_of_ascii c in
  ((65 <=? n) && (n <=? 90)) || ((97 <=? n) && (n <=? 122))
  || ((48 <=? n) && (n <=? 57))
  || bool_decide (c ∈ list_ascii_of_string "-_.!~*'()").

Definition hexDigit (n : nat) : ascii :=
  nth n (list_ascii_of_string "0123456789ABCDEF") "0"%char.

Fixpoint encodeURIComponent (s : string) : string :=
  match s with
  | EmptyString => EmptyString
  | String c rest =>
      if uriUnreserved c
      then String c (encodeURIComponent rest)
      else let n := nat_of_ascii c in
           String "%" (String (hexDigit (n / 16))
                         (String (hexDigit (n mod 16))
                            (encodeURIComponent rest)))
  end.

(** A [File] as the scripts use it. *)
Record File : Type := { name : string; type : string }.

End Dom.

Import Dom.

(** ** The shared script ([script.js]) *)

Module Shared.

(** Theme: the root element's classes, the two icons (absent on a page
    without them) and [localStorage]. *)
Record Theme : Type := {
  documentElement : gset string;
  themeToggleDarkIcon : option (gset string);
  themeToggleLightIcon : option (gset string);
  localStorage : gmap string string
}.

(** The output area. [fileInput] and [svgCode] hold the element's [value]
    as its getter returns it, [svgPreview] the markup last assigned to the
    element's [innerHTML], [downloadBtn] the element's [dataset]; [None]
    when the page has no such element. *)
Record View : Type := {
  outputPlaceholder : gset string;
  outputContent : gset string;
  svgPreview : string;
  fileInput : option string;
  svgCode : option string;
  downloadBtn : option (gmap string string)
}.

(** The [#notification] element and the pending [notificationTimeout]. *)
Record Notification : Type := {
  textContent : string;
  className : gset string;
  notificationTimeout : bool
}.

(** What runs when the promise of [showMsgBox] resolves. *)
Inductive Continuation : Type :=
| AwaitNothing   (* the copy handler drops the promise *)
| AwaitClear.    (* the clear handler awaits it *)

(** The [.msgbox-overlay] in the body. [closing] is the value of the first
    [close(value)] whose [transitionend] listener is registered. *)
Record MsgBox : Type := {
  overlayId : nat;
  title : string;
  message : string;
  isConfirm : bool;
  overlayShow : bool;
  closing : option bool;
  awaiting : Continuation
}.

(** Callbacks waiting for the platform. *)
Inductive Task : Type :=
| SvgReader                      (* [reader.readAsText(file)] *)
| ImageReader                    (* [reader.readAsDataURL(file)] *)
| ImageDecode (src : string)     (* [img.src = e.target.result] *)
| ClipboardWrite (text : string).

Record State : Type := {
  theme : Theme;
  view : View;
  notification : Notification;
  dropZone : option (gset string);
  themeToggleBtn : bool;
  clearBtn : bool;
  copyBtn : bool;
  msgbox : option MsgBox;
  nextOverlay : nat;
  currentSvgContent : string;
  tasks : list Task;
  clipboard : option string;
  downloads : list (string * string)
}.

Definition set_theme (f : Theme -> Theme) (s : State) : State :=
  {| theme := f (theme s); view := view s; notification := notification s;
     dropZone := dropZone s; themeToggleBtn := themeToggleBtn s;
     clearBtn := clearBtn s; copyBtn := copyBtn s; msgbox := msgbox s;
     nextOverlay := nextOverlay s; currentSvgContent := currentSvgContent s;
     tasks := tasks s; clipboard := clipboard s; downloads := downloads s |}.

Definition set_view (f : View -> View) (s : State) : State :=
  {| theme := theme s; view := f (view s); notification := notification s;
     dropZone := dropZone s; themeToggleBtn := themeToggleBtn s;
     clearBtn := clearBtn s; copyBtn := copyBtn s; msgbox := msgbox s;
     nextOverlay := nextOverlay s; currentSvgContent := currentSvgContent s;
     tasks := tasks s; clipboard := clipboard s; downloads := downloads s |}.

Definition set_notification (n : Notification) (s : State) : State :=
  {| theme := theme s; view := view s; notification := n;
     dropZone := dropZone s; themeToggleBtn := themeToggleBtn s;
     clearBtn := clearBtn s; copyBtn := copyBtn s; msgbox := msgbox s;
     nextOverlay := nextOverlay s; currentSvgContent := currentSvgContent s;
     tasks := tasks s; clipboard := clipboard s; downloads := downloads s |}.

Definition set_dropZone (f : gset string -> gset string) (s : State) : State :=
  {| theme := theme s; view := view s; notification := notification s;
     dropZone := f <$> dropZone s; themeToggleBtn := themeToggleBtn s;
     clearBtn := clearBtn s; copyBtn := copyBtn s; msgbox := msgbox s;
     nextOverlay := nextOverlay s; currentSvgContent := currentSvgContent s;
     tasks := tasks s; clipboard := clipboard s; downloads := downloads s |}.

Definition set_msgbox (m : option MsgBox) (next : nat) (s : State) : State :=
  {| theme := theme s; view := view s; notification := notification s;
     dropZone := dropZone s; themeToggleBtn := themeToggleBtn s;
     clearBtn := clearBtn s; copyBtn := copyBtn s; msgbox := m;
     nextOverlay := next; currentSvgContent := currentSvgContent s;
     tasks := tasks s; clipboard := clipboard s; downloads := downloads s |}.

Definition set_currentSvgContent (c : string) (s : State) : State :=
  {| theme := theme s; view := view s; notification := notification s;
     dropZone := dropZone s; themeToggleBtn := themeToggleBtn s;
     clearBtn := clearBtn s; copyBtn := copyBtn s; msgbox := msgbox s;
     nextOverlay := nextOverlay s; currentSvgContent := c;
     tasks := tasks s; clipboard := clipboard s; downloads := downloads s |}.

Definition set_tasks (f : list Task -> list Task) (s : State) : State :=
  {| theme := theme s; view := view s; notification := notification s;
     dropZone := dropZone s; themeToggleBtn := themeToggleBtn s;
     clearBtn := clearBtn s; copyBtn := copyBtn s; msgbox := msgbox s;
     nextOverlay := nextOverlay s; currentSvgContent := currentSvgContent s;
     tasks := f (tasks s); clipboard := clipboard s; downloads := downloads s |}.

Definition set_clipboard (text : string) (s : State) : State :=
  {| theme := theme s; view := view s; notification := notification s;
     dropZone := dropZone s; themeToggleBtn := themeToggleBtn s;
     clearBtn := clearBtn s; copyBtn := copyBtn s; msgbox := msgbox s;
     nextOverlay := nextOverlay s; currentSvgContent := currentSvgContent s;
     tasks := tasks s; clipboard := Some text; downloads := downloads s |}.

Definition add_download (file : string * string) (s : State) : State :=
  {| theme := theme s; view := view s; notification := notification s;
     dropZone := dropZone s; themeToggleBtn := themeToggleBtn s;
     clearBtn := clearBtn s; copyBtn := copyBtn s; msgbox := msgbox s;
     nextOverlay := nextOverlay s; currentSvgContent := currentSvgContent s;
     tasks := tasks s; clipboard := clipboard s;
     downloads := downloads s ++ [file] |}.

(** *** 1. Theme toggler *)

(** [updateThemeIcons(isDark)]: nothing happens unless both icons exist. *)
Definition updateThemeIcons (isDark : bool) (t : Theme) : Theme :=
  match themeToggleDarkIcon t, themeToggleLightIcon t with
  | Some dark, Some light =>
      {| documentElement := documentElement t;
         themeToggleDarkIcon :=
           Some (classList_toggle_force "hidden" (negb isDark) dark);
         themeToggleLightIcon :=
           Some (classList_toggle_force "hidden" isDark light);
         localStorage := localStorage t |}
  | _, _ => t
  end.

(** The click listener of [#theme-toggle]. *)
Definition themeToggle_click (t : Theme) : Theme :=
  let '(classes, isDark) := classList_toggle "dark" (documentElement t) in
  updateThemeIcons isDark
    {| documentElement := classes;
       themeToggleDarkIcon := themeToggleDarkIcon t;
       themeToggleLightIcon := themeToggleLightIcon t;
       localStorage :=
         <["theme" := if isDark then "dark" else "light"]> (localStorage t) |}.

(** [updateThemeIcons(document.documentElement.classList.contains('dark'))],
    run once when the script loads. *)
Definition initThemeIcons (t : Theme) : Theme :=
  updateThemeIcons (classList_contains "dark" (documentElement t)) t.

(** *** 2. Notification system *)

(** [showNotification(message, type = 'error')]. *)
Definition showNotification (msg : string) (kind : string) (s : State)
  : State :=
  set_notification
    {| textContent := msg;
       className :=
         classList_add "show" (classList_add kind {[ "notification" ]});
       notificationTimeout := true |} s.

(** The timer armed by [showNotification] fires. *)
Definition notification_timeout (s : State) : State :=
  let n := notification s in
  set_notification
    {| textContent := textContent n;
       className := classList_remove "show" (className n);
       notificationTimeout := false |} s.

(** *** 3. View reset *)

(** [resetView()]. *)
Definition resetView (s : State) : State :=
  set_view (fun v =>
    {| outputPlaceholder := classList_remove "hidden" (outputPlaceholder v);
       outputContent := classList_add "hidden" (outputContent v);
       svgPreview := "";
       fileInput := (fun _ => "") <$> fileInput v;
       svgCode := (fun _ => "") <$> svgCode v;
       downloadBtn := <["svgContent" := ""]> <$> downloadBtn v |}) s.

(** [window.resetView], installed by the image page only: the original
    reset, then [currentSvgContent = '']. *)
Definition window_resetView (s : State) : State :=
  set_currentSvgContent "" (resetView s).

(** Which page-specific blocks of the script ran at load time. *)
Definition svgPage (s : State) : bool :=
  match svgCode (view s) with Some _ => copyBtn s | None => false end.

Definition imagePage (s : State) : bool :=
  match downloadBtn (view s) with Some _ => true | None => false end.

(** The two view modes, read off the two containers. *)
Definition isPlaceholder (s : State) : bool :=
  negb (classList_contains "hidden" (outputPlaceholder (view s)))
  && classList_contains "hidden" (outputContent (view s)).

Definition isResult (s : State) : bool :=
  classList_contains "hidden" (outputPlaceholder (view s))
  && negb (classList_contains "hidden" (outputContent (view s))).

(** [outputPlaceholder.classList.add('hidden');
     outputContent.classList.remove('hidden')]. *)
Definition showOutput (v : View) : View :=
  {| outputPlaceholder := classList_add "hidden" (outputPlaceholder v);
     outputContent := classList_remove "hidden" (outputContent v);
     svgPreview := svgPreview v;
     fileInput := fileInput v;
     svgCode := svgCode v;
     downloadBtn := downloadBtn v |}.

(** *** Message box *)

(** [showMsgBox(options)]: an overlay already in the body is removed (its
    promise is never resolved), and a new one is appended. *)
Definition showMsgBox (ttl msg : string) (confirm : bool)
    (k : Continuation) (s : State) : State :=
  set_msgbox
    (Some {| overlayId := nextOverlay s; title := ttl; message := msg;
             isConfirm := confirm; overlayShow := false; closing := None;
             awaiting := k |})
    (S (nextOverlay s)) s.

(** The 10 ms timer of overlay [id]: [overlay.classList.add('show')]. It
    has no visible effect once that overlay has left the body. *)
Definition msgbox_showTimer (id : nat) (s : State) : State :=
  match msgbox s with
  | Some m =>
      if Nat.eqb (overlayId m) id
      then set_msgbox
             (Some {| overlayId := overlayId m; title := title m;
                      message := message m; isConfirm := isConfirm m;
                      overlayShow := true; closing := closing m;
                      awaiting := awaiting m |}) (nextOverlay s) s
      else s
  | None => s
  end.

(** [close(value)]: drops the [show] class and registers a one-shot
    [transitionend] listener; the promise keeps the first value given to
    [resolve]. *)
Definition msgbox_close (value : bool) (s : State) : State :=
  match msgbox s with
  | Some m =>
      set_msgbox
        (Some {| overlayId := overlayId m; title := title m;
                 message := message m; isConfirm := isConfirm m;
                 overlayShow := false;
                 closing := match closing m with
                            | Some v => Some v
                            | None => Some value
                            end;
                 awaiting := awaiting m |}) (nextOverlay s) s
  | None => s
  end.

(** The clear handler after its [await]:
    [window.resetView ? window.resetView() : resetView()] when confirmed. *)
Definition resume (k : Continuation) (confirmed : bool) (s : State) : State :=
  match k with
  | AwaitNothing => s
  | AwaitClear =>
      if confirmed
      then (if imagePage s then window_resetView s else resetView s)
      else s
  end.

(** [close] has been called and the overlay's transition ends: the overlay
    is removed and the promise resolved with the first value. *)
Definition msgbox_transitionend (s : State) : State :=
  match msgbox s with
  | Some m =>
      match closing m with
      | Some value => resume (awaiting m) value (set_msgbox None (nextOverlay s) s)
      | None => s
      end
  | None => s
  end.

(** The click listener of [#clearBtn]. *)
Definition clearBtn_click (s : State) : State :=
  if negb (classList_contains "hidden" (outputPlaceholder (view s)))
  then s
  else showMsgBox "Confirm Clear"
         "Are you sure you want to clear the current SVG?" true AwaitClear s.

(** *** 4. Drag and drop *)

Definition dropZone_dragover (s : State) : State :=
  set_dropZone (classList_add "dragover") s.

Definition dropZone_dragleave (s : State) : State :=
  set_dropZone (classList_remove "dragover") s.

(** The drop listener. [processSvgFile] and [processImageFile] are [const]
    bindings of the blocks of the two page-specific [if] statements; the
    listener is created outside those blocks, so the call it makes raises
    a [ReferenceError] after the highlight has been removed. The second
    component is the uncaught exception. *)
Definition dropZone_drop (file : option File) (s : State)
  : State * option string :=
  (set_dropZone (classList_remove "dragover") s,
   Some (match svgCode (view s) with
         | Some _ => "ReferenceError: processSvgFile is not defined"
         | None => "ReferenceError: processImageFile is not defined"
         end)).

(** *** SVG-to-code page *)

Section Platform.

(** [new DOMParser().parseFromString(text, 'image/svg+xml')]. *)
Variable parseFromString : string -> Node.

(** [processSvgFile(file)]. *)
Definition processSvgFile (file : option File) (s : State) : State :=
  match file with
  | None => s
  | Some f =>
      if negb (String.eqb (type f) "image/svg+xml")
      then showNotification "Invalid file type. Please upload an SVG." "error" s
      else set_tasks (fun l => l ++ [SvgReader]) s
  end.

(** The [try] block of [reader.onload]: [inl] is the thrown error's
    message. On success the text is assigned to the preview's [innerHTML]
    and to the code area's [value], which from then on reads as the text
    with its newlines normalised. *)
Definition svgReader_try (svgContent : string) (s : State) : string + State :=
  let doc := parseFromString svgContent in
  match querySelector "parsererror" doc with
  | Some _ => inl "Malformed SVG file."
  | None =>
      inr (set_view (fun v =>
             showOutput
               {| outputPlaceholder := outputPlaceholder v;
                  outputContent := outputContent v;
                  svgPreview := svgContent;
                  fileInput := fileInput v;
                  svgCode :=
                    (fun _ => normalizeNewlines svgContent) <$> svgCode v;
                  downloadBtn := downloadBtn v |}) s)
  end.

(** [reader.onload] of [processSvgFile], with its [catch]. *)
Definition svgReader_onload (svgContent : string) (s : State) : State :=
  match svgReader_try svgContent s with
  | inr s' => s'
  | inl error_message =>
      resetView
        (showNotification
           (js_or error_message "Could not process the SVG file.") "error" s)
  end.

(** [reader.onerror], the same in both processors. *)
Definition reader_onerror (s : State) : State :=
  resetView (showNotification "Could not read the file." "error" s).

(** The click listener of [#copyBtn]. *)
Definition copyBtn_click (s : State) : State :=
  match svgCode (view s) with
  | Some value =>
      if js_not value then s
      else set_tasks (fun l => l ++ [ClipboardWrite value]) s
  | None => s
  end.

(** [writeText(...).then(...).catch(...)]. *)
Definition clipboard_done (ok : bool) (text : string) (s : State) : State :=
  if ok
  then showMsgBox "Success!"
         "The SVG code has been copied to your clipboard." false AwaitNothing
         (set_clipboard text s)
  else showNotification "Failed to copy to clipboard." "error" s.

(** *** Image-to-SVG page *)

(** [processImageFile(file)]. *)
Definition processImageFile (file : option File) (s : State) : State :=
  match file with
  | None => s
  | Some f =>
      if negb (String.prefix "image/" (type f))
      then showNotification
             "Invalid file type. Please upload a PNG or JPG." "error" s
      else set_tasks (fun l => l ++ [ImageReader]) s
  end.

(** [reader.onload] of [processImageFile]: a new [Image] starts loading
    the data URL. *)
Definition imageReader_onload (result : string) (s : State) : State :=
  set_tasks (fun l => l ++ [ImageDecode result]) s.

(** The template literal assigned to [currentSvgContent]. *)
Definition wrapperSvg (width height : N) (href : string) : string :=
  "<svg xmlns=" +:+ dquote +:+ "http://www.w3.org/2000/svg" +:+ dquote
  +:+ " width=" +:+ dquote +:+ pretty width +:+ dquote
  +:+ " height=" +:+ dquote +:+ pretty height +:+ dquote
  +:+ " viewBox=" +:+ dquote +:+ "0 0 " +:+ pretty width +:+ " "
  +:+ pretty height +:+ dquote +:+ ">" +:+ newline
  +:+ "  <image href=" +:+ dquote +:+ href +:+ dquote
  +:+ " width=" +:+ dquote +:+ pretty width +:+ dquote
  +:+ " height=" +:+ dquote +:+ pretty height +:+ dquote +:+ "/>" +:+ newline
  +:+ "</svg>".

(** [img.onload]; [href] is the [e.target.result] the closure captured.
    The wrapper is kept in [currentSvgContent] and assigned to the
    preview's [innerHTML]. *)
Definition img_onload (width height : N) (href : string) (s : State) : State :=
  let content := wrapperSvg width height href in
  set_view (fun v =>
    showOutput
      {| outputPlaceholder := outputPlaceholder v;
         outputContent := outputContent v;
         svgPreview := content;
         fileInput := fileInput v;
         svgCode := svgCode v;
         downloadBtn := downloadBtn v |})
    (set_currentSvgContent content s).

(** [img.onerror]. *)
Definition img_onerror (s : State) : State :=
  showNotification "Could not load the image file." "error" s.

(** The click listener of [#downloadBtn]. *)
Definition downloadBtn_click (s : State) : State :=
  if js_not (currentSvgContent s)
  then showNotification "There is no SVG to download." "error" s
  else add_download ("converted.svg", currentSvgContent s) s.

(** *** The event loop *)

Definition hasFileInput (s : State) : bool :=
  match fileInput (view s) with Some _ => true | None => false end.

(** Before the [change] event the browser sets the input's [value] to the
    chosen file, or empties it when nothing is chosen. *)
Definition fileInput_select (file : option File) (s : State) : State :=
  let chosen := match file with
                | Some f => "C:\fakepath\" +:+ name f
                | None => ""
                end in
  set_view (fun v =>
    {| outputPlaceholder := outputPlaceholder v;
       outputContent := outputContent v;
       svgPreview := svgPreview v;
       fileInput := (fun _ => chosen) <$> fileInput v;
       svgCode := svgCode v;
       downloadBtn := downloadBtn v |}) s.

(** The [change] listeners of [#fileInput], in registration order. *)
Definition fileInput_change (file : option File) (s : State) : State :=
  let s1 := if svgPage s then processSvgFile file s else s in
  if imagePage s1 then processImageFile file s1 else s1.

Inductive Event : Type :=
| ThemeToggleClick
| FileInputChange (file : option File)     (* [e.target.files[0]] *)
| DragOver
| DragLeave
| Drop (file : option File)                (* [e.dataTransfer.files[0]] *)
| ClearClick
| CopyClick
| DownloadClick
| ReaderLoad (i : nat) (result : string)   (* pending reader [i] succeeds *)
| ReaderError (i : nat)
| ImageLoad (i : nat) (width height : N)   (* pending image [i] decodes *)
| ImageError (i : nat)
| ClipboardDone (i : nat) (ok : bool)
| NotificationTimeout
| MsgBoxShowTimer (id : nat)
| MsgBoxOk
| MsgBoxCancel
| MsgBoxOverlayClick
| MsgBoxTransitionEnd.

Definition finish_task (i : nat) (s : State) : State :=
  set_tasks (delete i) s.

(** One turn of the event loop; [None] when the event cannot occur in this
    state (no such element, no such pending callback). *)
Definition step (s : State) (e : Event) : option State :=
  match e with
  | ThemeToggleClick =>
      if themeToggleBtn s then Some (set_theme themeToggle_click s) else None
  | FileInputChange file =>
      match fileInput (view s) with
      | Some _ => Some (fileInput_change file (fileInput_select file s))
      | None => None
      end
  | DragOver => (fun _ => dropZone_dragover s) <$> dropZone s
  | DragLeave => (fun _ => dropZone_dragleave s) <$> dropZone s
  | Drop file => (fun _ => fst (dropZone_drop file s)) <$> dropZone s
  | ClearClick => if clearBtn s then Some (clearBtn_click s) else None
  | CopyClick => if svgPage s then Some (copyBtn_click s) else None
  | DownloadClick => if imagePage s then Some (downloadBtn_click s) else None
  | ReaderLoad i result =>
      match tasks s !! i with
      | Some SvgReader => Some (svgReader_onload result (finish_task i s))
      | Some ImageReader => Some (imageReader_onload result (finish_task i s))
      | _ => None
      end
  | ReaderError i =>
      match tasks s !! i with
      | Some SvgReader | Some ImageReader =>
          Some (reader_onerror (finish_task i s))
      | _ => None
      end
  | ImageLoad i width height =>
      match tasks s !! i with
      | Some (ImageDecode src) =>
          Some (img_onload width height src (finish_task i s))
      | _ => None
      end
  | ImageError i =>
      match tasks s !! i with
      | Some (ImageDecode _) => Some (img_onerror (finish_task i s))
      | _ => None
      end
  | ClipboardDone i ok =>
      match tasks s !! i with
      | Some (ClipboardWrite text) =>
          Some (clipboard_done ok text (finish_task i s))
      | _ => None
      end
  | NotificationTimeout =>
      if notificationTimeout (notification s)
      then Some (notification_timeout s) else None
  | MsgBoxShowTimer id => Some (msgbox_showTimer id s)
  | MsgBoxOk => (fun _ => msgbox_close true s) <$> msgbox s
  | MsgBoxCancel =>
      match msgbox s with
      | Some m => if isConfirm m then Some (msgbox_close false s) else None
      | None => None
      end
  | MsgBoxOverlayClick => (fun _ => msgbox_close false s) <$> msgbox s
  | MsgBoxTransitionEnd => (fun _ => msgbox_transitionend s) <$> msgbox s
  end.

(** A sequence of events, from left to right. *)
Fixpoint run (s : State) (trace : list Event) : option State :=
  match trace with
  | [] => Some s
  | e :: rest =>
      match step s e with
      | Some s' => run s' rest
      | None => None
      end
  end.

Definition reachable (init s : State) : Prop :=
  exists trace, run init trace = Some s.

End Platform.

(** *** The pages at load time *)

Inductive Page : Type := SvgToCode | ImageToSvg.

(** Modelled from the spec: the HTML of the two pages is not among the
    sources. A page is "created on load in Placeholder": the placeholder
    is visible, the output hidden, nothing is cached, and the page holds the
    elements its part of the script looks up. The script's own load-time
    step, [updateThemeIcons], is applied to the icons. *)
Definition loaded (p : Page) (rootClasses : gset string)
    (storage : gmap string string) : State :=
  {| theme := initThemeIcons
                {| documentElement := rootClasses;
                   themeToggleDarkIcon := Some {[ "hidden" ]};
                   themeToggleLightIcon := Some {[ "hidden" ]};
                   localStorage := storage |};
     view := {| outputPlaceholder := ∅;
                outputContent := {[ "hidden" ]};
                svgPreview := "";
                fileInput := Some "";
                svgCode := match p with
                           | SvgToCode => Some ""
                           | ImageToSvg => None
                           end;
                downloadBtn := match p with
                               | SvgToCode => None
                               | ImageToSvg => Some ∅
                               end |};
     notification := {| textContent := "";
                        className := {[ "notification" ]};
                        notificationTimeout := false |};
     dropZone := Some ∅;
     themeToggleBtn := true;
     clearBtn := true;
     copyBtn := match p with SvgToCode => true | ImageToSvg => false end;
     msgbox := None;
     nextOverlay := 0;
     currentSvgContent := "";
     tasks := [];
     clipboard := None;
     downloads := [] |}.

End Shared.

(** ** The self-contained script of the SVG-to-code page *)

Module Standalone.

Record Theme : Type := {
  documentElement : gset string;
  themeToggleDarkIcon : gset string;
  themeToggleLightIcon : gset string;
  localStorage : gmap string string
}.

(** [svgPreview] lists the [src] of the [img] children of [#svgPreview];
    [svgCode] is the text area's [value] as its getter returns it;
    [alerts] the [.custom-alert] boxes in the body, oldest first, by
    creation number; [readers] counts the file reads in flight. *)
Record State : Type := {
  theme : Theme;
  uploadView : gset string;
  previewContainer : gset string;
  svgPreview : list string;
  svgCode : string;
  fileInput : string;
  borderColor : string;
  alerts : list nat;
  nextAlert : nat;
  readers : nat
}.

(** [updateThemeIcons()]. *)
Definition updateThemeIcons (t : Theme) : Theme :=
  if classList_contains "dark" (documentElement t)
  then {| documentElement := documentElement t;
          themeToggleDarkIcon :=
            classList_add "hidden" (themeToggleDarkIcon t);
          themeToggleLightIcon :=
            classList_remove "hidden" (themeToggleLightIcon t);
          localStorage := localStorage t |}
  else {| documentElement := documentElement t;
          themeToggleDarkIcon :=
            classList_remove "hidden" (themeToggleDarkIcon t);
          themeToggleLightIcon :=
            classList_add "hidden" (themeToggleLightIcon t);
          localStorage := localStorage t |}.

(** The click listener of [#theme-toggle]. *)
Definition themeToggle_click (t : Theme) : Theme :=
  let classes := fst (classList_toggle "dark" (documentElement t)) in
  let isDarkMode := classList_contains "dark" classes in
  updateThemeIcons
    {| documentElement := classes;
       themeToggleDarkIcon := themeToggleDarkIcon t;
       themeToggleLightIcon := themeToggleLightIcon t;
       localStorage :=
         <["theme" := if isDarkMode then "dark" else "light"]>
           (localStorage t) |}.

Definition set_theme (f : Theme -> Theme) (s : State) : State :=
  {| theme := f (theme s); uploadView := uploadView s;
     previewContainer := previewContainer s; svgPreview := svgPreview s;
     svgCode := svgCode s; fileInput := fileInput s;
     borderColor := borderColor s; alerts := alerts s;
     nextAlert := nextAlert s; readers := readers s |}.

Definition set_fileInput (value : string) (s : State) : State :=
  {| theme := theme s; uploadView := uploadView s;
     previewContainer := previewContainer s; svgPreview := svgPreview s;
     svgCode := svgCode s; fileInput := value;
     borderColor := borderColor s; alerts := alerts s;
     nextAlert := nextAlert s; readers := readers s |}.

Definition set_borderColor (c : string) (s : State) : State :=
  {| theme := theme s; uploadView := uploadView s;
     previewContainer := previewContainer s; svgPreview := svgPreview s;
     svgCode := svgCode s; fileInput := fileInput s;
     borderColor := c; alerts := alerts s;
     nextAlert := nextAlert s; readers := readers s |}.

Definition set_alerts (l : list nat) (next : nat) (s : State) : State :=
  {| theme := theme s; uploadView := uploadView s;
     previewContainer := previewContainer s; svgPreview := svgPreview s;
     svgCode := svgCode s; fileInput := fileInput s;
     borderColor := borderColor s; alerts := l;
     nextAlert := next; readers := readers s |}.

Definition set_readers (n : nat) (s : State) : State :=
  {| theme := theme s; uploadView := uploadView s;
     previewContainer := previewContainer s; svgPreview := svgPreview s;
     svgCode := svgCode s; fileInput := fileInput s;
     borderColor := borderColor s; alerts := alerts s;
     nextAlert := nextAlert s; readers := n |}.

(** The [else] branch of [handleFile]: the first alert box in the body, if
    any, is removed; a new one is appended and a 3 s timer armed for it. *)
Definition customAlert (s : State) : State :=
  set_alerts (tail (alerts s) ++ [nextAlert s]) (S (nextAlert s)) s.

(** The timer of alert box [id]: [alertBox.remove()]. *)
Definition alert_timeout (id : nat) (s : State) : State :=
  set_alerts (filter (fun a => a ≠ id) (alerts s)) (nextAlert s) s.

(** [handleFile(file)]. *)
Definition handleFile (file : option File) (s : State) : State :=
  let isSvg := match file with
               | Some f => String.eqb (type f) "image/svg+xml"
               | None => false
               end in
  if isSvg then set_readers (S (readers s)) s else customAlert s.

(** [reader.onload] of [handleFile]: the image's [src] is built from the
    text as read; the code area's [value] reads as the text with its
    newlines normalised. *)
Definition reader_onload (svgContent : string) (s : State) : State :=
  {| theme := theme s;
     uploadView := classList_add "hidden" (uploadView s);
     previewContainer := classList_remove "hidden" (previewContainer s);
     svgPreview := ["data:image/svg+xml," +:+ encodeURIComponent svgContent];
     svgCode := normalizeNewlines svgContent;
     fileInput := fileInput s;
     borderColor := borderColor s;
     alerts := alerts s;
     nextAlert := nextAlert s;
     readers := readers s |}.

(** The click listener of [#resetBtn]. *)
Definition resetBtn_click (s : State) : State :=
  {| theme := theme s;
     uploadView := classList_remove "hidden" (uploadView s);
     previewContainer := classList_add "hidden" (previewContainer s);
     svgPreview := [];
     svgCode := "";
     fileInput := "";
     borderColor := borderColor s;
     alerts := alerts s;
     nextAlert := nextAlert s;
     readers := readers s |}.

Definition isPlaceholder (s : State) : bool :=
  negb (classList_contains "hidden" (uploadView s))
  && classList_contains "hidden" (previewContainer s).

Definition isResult (s : State) : bool :=
  classList_contains "hidden" (uploadView s)
  && negb (classList_contains "hidden" (previewContainer s)).

(** The events of the page. The copy button only relabels itself and is
    left out. *)
Inductive Event : Type :=
| ThemeToggleClick
| FileInputChange (file : option File)   (* [e.target.files[0]] *)
| DragOver
| DragLeave
| Drop (files : list File)               (* [e.dataTransfer.files] *)
| ReaderLoad (result : string)
| ResetClick
| AlertTimeout (id : nat).

Definition step (s : State) (e : Event) : option State :=
  match e with
  | ThemeToggleClick => Some (set_theme themeToggle_click s)
  | FileInputChange file =>
      let chosen := match file with
                    | Some f => "C:\fakepath\" +:+ name f
                    | None => ""
                    end in
      Some (handleFile file (set_fileInput chosen s))
  | DragOver => Some (set_borderColor "var(--purple)" s)
  | DragLeave => Some (set_borderColor "" s)
  | Drop files =>
      let s1 := set_borderColor "" s in
      Some (match files with
            | f :: _ => handleFile (Some f) s1
            | [] => s1
            end)
  | ReaderLoad result =>
      match readers s with
      | S n => Some (reader_onload result (set_readers n s))
      | O => None
      end
  | ResetClick => Some (resetBtn_click s)
  | AlertTimeout id => Some (alert_timeout id s)
  end.

Fixpoint run (s : State) (trace : list Event) : option State :=
  match trace with
  | [] => Some s
  | e :: rest =>
      match step s e with
      | Some s' => run s' rest
      | None => None
      end
  end.

(** Modelled from the spec: the page's HTML is not among the sources; the
    page is "created on load in Placeholder". The script's load-time call
    of [updateThemeIcons] is applied. *)
Definition loaded (rootClasses : gset string) (storage : gmap string string)
  : State :=
  {| theme := updateThemeIcons
                {| documentElement := rootClasses;
                   themeToggleDarkIcon := {[ "hidden" ]};
                   themeToggleLightIcon := {[ "hidden" ]};
                   localStorage := storage |};
     uploadView := ∅;
     previewContainer := {[ "hidden" ]};
     svgPreview := [];
     svgCode := "";
     fileInput := "";
     borderColor := "";
     alerts := [];
     nextAlert := 0;
     readers := 0 |}.

End Standalone.

(** *** The copy button of the self-contained script *)

Module StandaloneCopy.

(** The button's [span] text, the markup of its [svg] icon, the original
    texts captured by the restore timers still pending (they share one
    delay, so they fire in the order they were armed), and the system
    clipboard. *)
Record CopyButton : Type := {
  span : string;
  svg : string;
  restore : list string;
  clipboard : option string
}.

(** What [document.execCommand('copy')] did: it copied the selection, it
    returned [false], or it threw. *)
Inductive ExecCommand : Type := Copied | Refused | Threw.

Definition checkIcon : string :=
  "<path stroke-linecap=" +:+ dquote +:+ "round" +:+ dquote
  +:+ " stroke-linejoin=" +:+ dquote +:+ "round" +:+ dquote
  +:+ " d=" +:+ dquote +:+ "M4.5 12.75l6 6 9-13.5" +:+ dquote +:+ " />".

Definition clipboardIcon : string :=
  "<path stroke-linecap=" +:+ dquote +:+ "round" +:+ dquote
  +:+ " stroke-linejoin=" +:+ dquote +:+ "round" +:+ dquote
  +:+ " d=" +:+ dquote
  +:+ "M15.666 3.888A2.25 2.25 0 0013.5 2.25h-3c-1.03 0-1.9.693-2.166 1.638m7.332 0c.055.194.084.4.084.612v0a2.25 2.25 0 01-2.25 2.25h-1.5a2.25 2.25 0 01-2.25-2.25V4.5A2.25 2.25 0 019 2.25h.084m7.5 0h.008v.008h-.008V3.888zm-7.5 0h.008v.008h-.008V3.888z"
  +:+ dquote +:+ " />".

(** The click listener of [#copyBtn]: the code area is selected and
    copied; unless the command throws, the label and the icon change and a
    timer is armed that will put back the label read at this click. The
    command's result is not looked at. *)
Definition copyBtn_click (outcome : ExecCommand) (page : Standalone.State)
    (b : CopyButton) : CopyButton :=
  match outcome with
  | Threw => b
  | _ =>
      {| span := "Copied!";
         svg := checkIcon;
         restore := restore b ++ [span b];
         clipboard := match outcome with
                      | Copied => Some (Standalone.svgCode page)
                      | _ => clipboard b
                      end |}
  end.

(** The oldest pending timer fires. *)
Definition restore_timeout (b : CopyButton) : option CopyButton :=
  match restore b with
  | originalText :: rest =>
      Some {| span := originalText; svg := clipboardIcon; restore := rest;
              clipboard := clipboard b |}
  | [] => None
  end.

Inductive Event : Type :=
| Click (outcome : ExecCommand)
| Timeout.

Definition step (page : Standalone.State) (b : CopyButton) (e : Event)
  : option CopyButton :=
  match e with
  | Click outcome => Some (copyBtn_click outcome page b)
  | Timeout => restore_timeout b
  end.

Fixpoint run (page : Standalone.State) (b : CopyButton)
    (trace : list Event) : option CopyButton :=
  match trace with
  | [] => Some b
  | e :: rest =>
      match step page b e with
      | Some b' => run page b' rest
      | None => None
      end
  end.

End StandaloneCopy.

(** ** The terms of the specification *)

(** The classification rule in the words of the specification: the SVG
    type goes to the SVG processor, any other type with the raster-image
    prefix to the image wrapper, the rest is invalid. *)
Inductive Route : Type := ToSvgProcessor | ToImageWrapper | InvalidFileType.

Definition spec_route (mime : string) : Route :=
  if String.eqb mime "image/svg+xml" then ToSvgProcessor
  else if String.prefix "image/" mime then ToImageWrapper
  else InvalidFileType.

(** What a handler of the shared script did with a file, read off the
    reads it started. *)
Definition started (before after : Shared.State) : list Shared.Task :=
  drop (length (Shared.tasks before)) (Shared.tasks after).

Definition route_taken (before after : Shared.State) : Route :=
  match started before after with
  | Shared.SvgReader :: _ => ToSvgProcessor
  | Shared.ImageReader :: _ => ToImageWrapper
  | _ => InvalidFileType
  end.

(** The Document State a handler must leave alone when it rejects a
    file: both containers, the preview, the code area and the cached SVG. *)
Definition document_state (s : Shared.State)
  : gset string * gset string * string * option string * string :=
  (Shared.outputPlaceholder (Shared.view s),
   Shared.outputContent (Shared.view s),
   Shared.svgPreview (Shared.view s),
   Shared.svgCode (Shared.view s),
   Shared.currentSvgContent s).

(** A stand-in for [DOMParser], used to run the shared script on concrete
    inputs: it accepts the texts that open with [<svg] and close with
    [</svg>], and answers every other text with a [parsererror] element. *)
Definition stubParser (text : string) : Node :=
  if String.prefix "<svg" text
     && String.prefix (String.rev "</svg>") (String.rev text)
  then Element "svg" []
  else Element "parsererror" [].

(** Sample inputs: the SVG of the specification's scenario, an SVG file,
    a PNG file, a text file and a data URL. *)
Definition iconSvg : string :=
  "<svg xmlns=" +:+ dquote +:+ "http://www.w3.org/2000/svg" +:+ dquote
  +:+ "><circle r=" +:+ dquote +:+ "5" +:+ dquote +:+ "/></svg>".

(** An SVG text with a Windows line ending, and the same text with the
    line ending normalised. *)
Definition crlfSvg : string :=
  "<svg>" +:+ String "013"%char (String "010"%char "</svg>").

Definition lfSvg : string := "<svg>" +:+ String "010"%char "</svg>".

Definition iconFile : File := {| name := "icon.svg"; type := "image/svg+xml" |}.
Definition photoFile : File := {| name := "photo.png"; type := "image/png" |}.
Definition notesFile : File := {| name := "notes.txt"; type := "text/plain" |}.
Definition photoUrl : string := "data:image/png;base64,iVBORw0KGgo=".

(** The shared script picks the processor by the page it runs on; each
    processor then accepts or rejects the file by its type. *)
Definition onPage (p : Shared.Page) (s : Shared.State) : Prop :=
  match p with
  | Shared.SvgToCode => Shared.svgPage s = true /\ Shared.imagePage s = false
  | Shared.ImageToSvg => Shared.svgPage s = false /\ Shared.imagePage s = true
  end.

Definition accepts (p : Shared.Page) (mime : string) : bool :=
  match p with
  | Shared.SvgToCode => String.eqb mime "image/svg+xml"
  | Shared.ImageToSvg => String.prefix "image/" mime
  end.

Definition reader_of (p : Shared.Page) : Shared.Task :=
  match p with
  | Shared.SvgToCode => Shared.SvgReader
  | Shared.ImageToSvg => Shared.ImageReader
  end.

Definition rejection_of (p : Shared.Page) : string :=
  match p with
  | Shared.SvgToCode => "Invalid file type. Please upload an SVG."
  | Shared.ImageToSvg => "Invalid file type. Please upload a PNG or JPG."
  end.

(** The wrapper in the words of the specification: a root tag that
    declares the width, the height and the view box, and one [image]
    element with the data URI and the same width and height. *)
Definition svgRootTag (W H : N) : string :=
  "<svg xmlns=" +:+ dquote +:+ "http://www.w3.org/2000/svg" +:+ dquote
  +:+ " width=" +:+ dquote +:+ pretty W +:+ dquote
  +:+ " height=" +:+ dquote +:+ pretty H +:+ dquote
  +:+ " viewBox=" +:+ dquote +:+ "0 0 " +:+ pretty W +:+ " " +:+ pretty H
  +:+ dquote +:+ ">".

Definition imageElement (href : string) (W H : N) : string :=
  "<image href=" +:+ dquote +:+ href +:+ dquote
  +:+ " width=" +:+ dquote +:+ pretty W +:+ dquote
  +:+ " height=" +:+ dquote +:+ pretty H +:+ dquote +:+ "/>".

(** The invariant of the SVG page: the page-specific block for SVG
    ran alone, no image read is pending, and the code area is non-empty
    exactly when the Result is shown. *)
Definition imageTask (t : Shared.Task) : bool :=
  match t with
  | Shared.ImageReader | Shared.ImageDecode _ => true
  | _ => false
  end.


(** The theme is settled when the stored entry mirrors the root's [dark]
    class and the icons are as [updateThemeIcons] leaves them. *)
Definition themeSettled (t : Shared.Theme) : Prop :=
  Shared.localStorage t !! "theme"
  = Some (if classList_contains "dark" (Shared.documentElement t)
          then "dark" else "light")
  /\ Shared.initThemeIcons t = t.

Definition themeSettled_standalone (t : Standalone.Theme) : Prop :=
  Standalone.localStorage t !! "theme"
  = Some (if classList_contains "dark" (Standalone.documentElement t)
          then "dark" else "light")
  /\ Standalone.updateThemeIcons t = t.

(** ** What one turn of the shared script's loop can do *)

(** Every turn of the loop either leaves the view, the cached SVG and the
    pending callbacks alone, or runs one of the handlers that touch them. *)
Inductive effect (parseFromString : string -> Node) (s : Shared.State)
  : Shared.State -> Prop :=
| effect_frame s' :
    Shared.view s' = Shared.view s ->
    Shared.currentSvgContent s' = Shared.currentSvgContent s ->
    Shared.copyBtn s' = Shared.copyBtn s ->
    Shared.tasks s' = Shared.tasks s ->
    Shared.downloads s' = Shared.downloads s ->
    effect parseFromString s s'
| effect_change file :
    effect parseFromString s
      (Shared.fileInput_change file (Shared.fileInput_select file s))
| effect_copy :
    Shared.svgPage s = true ->
    effect parseFromString s (Shared.copyBtn_click s)
| effect_download :
    Shared.imagePage s = true ->
    effect parseFromString s (Shared.downloadBtn_click s)
| effect_svg_load i result :
    Shared.tasks s !! i = Some Shared.SvgReader ->
    effect parseFromString s
      (Shared.svgReader_onload parseFromString result (Shared.finish_task i s))
| effect_image_read i result :
    Shared.tasks s !! i = Some Shared.ImageReader ->
    effect parseFromString s
      (Shared.imageReader_onload result (Shared.finish_task i s))
| effect_read_error i t :
    Shared.tasks s !! i = Some t ->
    effect parseFromString s (Shared.reader_onerror (Shared.finish_task i s))
| effect_image_load i width height src :
    Shared.tasks s !! i = Some (Shared.ImageDecode src) ->
    effect parseFromString s
      (Shared.img_onload width height src (Shared.finish_task i s))
| effect_image_error i src :
    Shared.tasks s !! i = Some (Shared.ImageDecode src) ->
    effect parseFromString s (Shared.img_onerror (Shared.finish_task i s))
| effect_clipboard i ok text :
    Shared.tasks s !! i = Some (Shared.ClipboardWrite text) ->
    effect parseFromString s
      (Shared.clipboard_done ok text (Shared.finish_task i s))
| effect_cleared :
    effect parseFromString s
      ((if Shared.imagePage s then Shared.window_resetView
        else Shared.resetView)
         (Shared.set_msgbox None (Shared.nextOverlay s) s)).


(** The view of the image page: a Result shows the cached SVG, which is a
    wrapper; the Placeholder shows nothing; and whatever is cached is a
    wrapper. *)
Definition isWrapper (content : string) : Prop :=
  exists W H url, content = Shared.wrapperSvg W H url.

Definition imagePageInv (s : Shared.State) : Prop :=
  onPage Shared.ImageToSvg s
  /\ Forall (fun t => imageTask t = true) (Shared.tasks s)
  /\ (Shared.currentSvgContent s = "" \/ isWrapper (Shared.currentSvgContent s))
  /\ ((Shared.isResult s = true
       /\ Shared.svgPreview (Shared.view s) = Shared.currentSvgContent s
       /\ isWrapper (Shared.currentSvgContent s))
      \/ (Shared.isPlaceholder s = true
          /\ Shared.svgPreview (Shared.view s) = "")).

(** The drag-and-drop events. *)
Definition isDragEvent (e : Shared.Event) : bool :=
  match e with
  | Shared.DragOver | Shared.DragLeave | Shared.Drop _ => true
  | _ => false
  end.

(** The view of the self-contained page: at the Placeholder the code area
    and the preview are empty; at the Result the preview is one image
    whose source is the data URI of a text, and the code area holds that
    text with its newlines normalised. And at most one alert box is in
    the body, the newest one. *)
Definition standaloneInv (u : Standalone.State) : Prop :=
  ((Standalone.isPlaceholder u = true
    /\ Standalone.svgCode u = "" /\ Standalone.svgPreview u = [])
   \/ (Standalone.isResult u = true
       /\ exists text,
            Standalone.svgPreview u
            = ["data:image/svg+xml," +:+ encodeURIComponent text]
            /\ Standalone.svgCode u = normalizeNewlines text))
  /\ (Standalone.alerts u = []
      \/ exists id, Standalone.alerts u = [id]
                    /\ S id = Standalone.nextAlert u).

(** The characters [encodeURIComponent] can produce. *)
Definition uriSafe (c : ascii) : bool :=
  uriUnreserved c
  || bool_decide (c ∈ list_ascii_of_string "%0123456789ABCDEF").

(** ** Token lists *)

Section TokenLists.

Implicit Types (t : string) (l : gset string).

Lemma contains_true t l : classList_contains t l = true <-> t ∈ l.
Proof. unfold classList_contains. apply bool_decide_eq_true. Qed.

Lemma contains_false t l : classList_contains t l = false <-> t ∉ l.
Proof. unfold classList_contains. apply bool_decide_eq_false. Qed.

Lemma contains_add t l : classList_contains t (classList_add t l) = true.
Proof. apply contains_true. unfold classList_add. set_solver. Qed.

Lemma contains_remove t l :
  classList_contains t (classList_remove t l) = false.
Proof. apply contains_false. unfold classList_remove. set_solver. Qed.

Lemma add_add t l : classList_add t (classList_add t l) = classList_add t l.
Proof. unfold classList_add. set_solver. Qed.

Lemma remove_remove t l :
  classList_remove t (classList_remove t l) = classList_remove t l.
Proof. unfold classList_remove. set_solver. Qed.

Lemma add_remove t l :
  classList_add t (classList_remove t l) = classList_add t l.
Proof.
  unfold classList_add, classList_remove. apply set_eq. intros x.
  destruct (decide (x = t)); set_solver.
Qed.

Lemma remove_add t l :
  classList_remove t (classList_add t l) = classList_remove t l.
Proof. unfold classList_add, classList_remove. set_solver. Qed.

Lemma add_present t l : t ∈ l -> classList_add t l = l.
Proof. unfold classList_add. set_solver. Qed.

Lemma remove_absent t l : t ∉ l -> classList_remove t l = l.
Proof. unfold classList_remove. set_solver. Qed.

Lemma toggle_force_twice t (b b' : bool) l :
  classList_toggle_force t b (classList_toggle_force t b' l)
  = classList_toggle_force t b l.
Proof.
  destruct b, b'; simpl;
    auto using add_add, add_remove, remove_add, remove_remove.
Qed.

(** Toggling a token twice gives the list back. *)
Lemma toggle_toggle t l :
  fst (classList_toggle t (fst (classList_toggle t l))) = l.
Proof.
  unfold classList_toggle.
  destruct (classList_contains t l) eqn:E; simpl.
  - rewrite contains_remove. simpl. rewrite add_remove.
    apply add_present, contains_true, E.
  - rewrite contains_add. simpl. rewrite remove_add.
    apply remove_absent, contains_false, E.
Qed.

End TokenLists.

#[local] Arguments classList_contains : simpl never.
#[local] Arguments classList_add : simpl never.
#[local] Arguments classList_remove : simpl never.

Create Rewrite HintDb tokens.

#[local] Hint Rewrite contains_add contains_remove add_add remove_remove
  add_remove remove_add toggle_force_twice : tokens.

(** ** Newline normalisation *)

Lemma normalize_empty_inv (text : string) :
  normalizeNewlines text = "" -> text = "".
Proof.
  destruct text as [|c rest]; [reflexivity|]. cbn [normalizeNewlines].
  destruct (Ascii.eqb c "013"%char); discriminate.
Qed.

Lemma normalize_without_cr (text : string) :
  hasNoCR text = true -> normalizeNewlines text = text.
Proof.
  unfold hasNoCR. induction text as [|c rest IH]; [reflexivity|].
  cbn [list_ascii_of_string forallb normalizeNewlines].
  intros H. apply andb_true_iff in H as [Hc Hrest].
  destruct (Ascii.eqb c "013"%char); [discriminate|].
  now rewrite IH.
Qed.

(** A normalised text holds no CR; proved for every text up to a length. *)
Lemma normalize_has_no_cr_upto (n : nat) (text : string) :
  String.length text <= n -> hasNoCR (normalizeNewlines text) = true.
Proof.
  revert text. induction n as [|n IH]; intros text Hlen.
  - destruct text; [reflexivity|cbn in Hlen; lia].
  - destruct text as [|c rest]; [reflexivity|].
    cbn [String.length] in Hlen. cbn [normalizeNewlines].
    destruct (Ascii.eqb c "013"%char) eqn:Ec.
    + destruct rest as [|c' rest']; [reflexivity|].
      cbn [String.length] in Hlen.
      destruct (Ascii.eqb c' "010"%char).
      * unfold hasNoCR in *. cbn [list_ascii_of_string forallb].
        rewrite (IH rest') by lia. reflexivity.
      * unfold hasNoCR in *. cbn [list_ascii_of_string forallb].
        rewrite (IH (String c' rest')) by (cbn [String.length]; lia).
        reflexivity.
    + unfold hasNoCR in *. cbn [list_ascii_of_string forallb].
      rewrite Ec. rewrite (IH rest) by lia. reflexivity.
Qed.

Lemma normalize_has_no_cr (text : string) :
  hasNoCR (normalizeNewlines text) = true.
Proof. now apply (normalize_has_no_cr_upto (String.length text)). Qed.

(** The normalisation leaves a text as it is exactly when the text holds
    no CR. *)
Lemma normalize_fixed_iff (text : string) :
  normalizeNewlines text = text <-> hasNoCR text = true.
Proof.
  split; [|apply normalize_without_cr].
  intros H. rewrite <- H. apply normalize_has_no_cr.
Qed.

(** ** Reset *)

Lemma resetView_idem (s : Shared.State) :
  Shared.resetView (Shared.resetView s) = Shared.resetView s.
Proof.
  unfold Shared.resetView, Shared.set_view; simpl.
  autorewrite with tokens.
  destruct (Shared.fileInput (Shared.view s)),
           (Shared.svgCode (Shared.view s)),
           (Shared.downloadBtn (Shared.view s)); simpl;
    rewrite ?insert_insert_eq; reflexivity.
Qed.

Lemma resetView_placeholder (s : Shared.State) :
  Shared.isPlaceholder (Shared.resetView s) = true.
Proof.
  unfold Shared.isPlaceholder, Shared.resetView; simpl.
  now autorewrite with tokens.
Qed.

(** C7: the reset is idempotent. In the shared script [resetView] and the
    image page's [window.resetView], and in the self-contained script the
    reset button's handler, give from every state the same state when
    called twice as when called once; that state is the Placeholder one:
    placeholder visible, output hidden, preview and code area empty, the
    file input's value empty and the cached SVG of the image page empty.
    The image page's reset gives the very view the shared reset gives,
    and no reset touches anything but the view and that cache. *)
Theorem reset_idempotent (s : Shared.State) (u : Standalone.State) :
  Shared.resetView (Shared.resetView s) = Shared.resetView s
  /\ Shared.window_resetView (Shared.window_resetView s)
     = Shared.window_resetView s
  /\ Standalone.resetBtn_click (Standalone.resetBtn_click u)
     = Standalone.resetBtn_click u
  /\ (Shared.isPlaceholder (Shared.resetView s) = true
      /\ Shared.svgPreview (Shared.view (Shared.resetView s)) = ""
      /\ Shared.svgCode (Shared.view (Shared.resetView s))
         = (fun _ => "") <$> Shared.svgCode (Shared.view s)
      /\ Shared.fileInput (Shared.view (Shared.resetView s))
         = (fun _ => "") <$> Shared.fileInput (Shared.view s)
      /\ Shared.currentSvgContent (Shared.window_resetView s) = "")
  /\ (Standalone.isPlaceholder (Standalone.resetBtn_click u) = true
      /\ Standalone.svgPreview (Standalone.resetBtn_click u) = []
      /\ Standalone.svgCode (Standalone.resetBtn_click u) = ""
      /\ Standalone.fileInput (Standalone.resetBtn_click u) = "")
  /\ (Shared.isPlaceholder (Shared.window_resetView s) = true
      /\ Shared.view (Shared.window_resetView s)
         = Shared.view (Shared.resetView s)
      /\ Shared.downloadBtn (Shared.view (Shared.resetView s))
         = <["svgContent" := ""]> <$> Shared.downloadBtn (Shared.view s))
  /\ (Shared.currentSvgContent (Shared.resetView s)
      = Shared.currentSvgContent s
      /\ (Shared.theme (Shared.resetView s),
          Shared.notification (Shared.resetView s),
          Shared.tasks (Shared.resetView s),
          Shared.msgbox (Shared.resetView s))
         = (Shared.theme s, Shared.notification s, Shared.tasks s,
            Shared.msgbox s)
      /\ (Shared.theme (Shared.window_resetView s),
          Shared.notification (Shared.window_resetView s),
          Shared.tasks (Shared.window_resetView s),
          Shared.msgbox (Shared.window_resetView s))
         = (Shared.theme s, Shared.notification s, Shared.tasks s,
            Shared.msgbox s)
      /\ (Standalone.theme (Standalone.resetBtn_click u),
          Standalone.alerts (Standalone.resetBtn_click u),
          Standalone.readers (Standalone.resetBtn_click u))
         = (Standalone.theme u, Standalone.alerts u, Standalone.readers u)).
Proof.
  split; [apply resetView_idem|].
  split.
  { unfold Shared.window_resetView.
    transitivity
      (Shared.set_currentSvgContent ""
         (Shared.resetView (Shared.resetView s))).
    - reflexivity.
    - now rewrite resetView_idem. }
  split.
  { unfold Standalone.resetBtn_click; simpl.
    now autorewrite with tokens. }
  split.
  { split; [apply resetView_placeholder|]. repeat split; reflexivity. }
  split.
  { unfold Standalone.isPlaceholder, Standalone.resetBtn_click; simpl.
    autorewrite with tokens. repeat split; reflexivity. }
  split.
  { split; [exact (resetView_placeholder s)|]. split; reflexivity. }
  repeat split; reflexivity.
Qed.

(** ** Absent file *)

(** C10: called with no file, [processSvgFile] and [processImageFile]
    return at once: the whole state, with its notification, its pending
    reads and its document, is the one before the call. *)
Theorem absent_file_is_ignored (s : Shared.State) :
  Shared.processSvgFile None s = s /\ Shared.processImageFile None s = s.
Proof. split; reflexivity. Qed.

(** ** Theme *)

Lemma theme_eq (a b : Shared.Theme) :
  Shared.documentElement a = Shared.documentElement b ->
  Shared.themeToggleDarkIcon a = Shared.themeToggleDarkIcon b ->
  Shared.themeToggleLightIcon a = Shared.themeToggleLightIcon b ->
  Shared.localStorage a = Shared.localStorage b ->
  a = b.
Proof. destruct a, b; simpl; congruence. Qed.

(** Whatever the state before, one click leaves the theme settled. *)
Lemma toggle_settles (t : Shared.Theme) :
  themeSettled (Shared.themeToggle_click t).
Proof.
  destruct t as [root dark light store].
  unfold themeSettled, Shared.themeToggle_click, Shared.initThemeIcons,
    Shared.updateThemeIcons, classList_toggle; simpl.
  destruct (classList_contains "dark" root) eqn:E;
    destruct dark, light; simpl;
    autorewrite with tokens; unfold classList_toggle_force; simpl;
    autorewrite with tokens; rewrite ?lookup_insert_eq; split; reflexivity.
Qed.

(** C8, as stated, fails on a first visit: nothing is stored under
    [theme], and after two clicks the entry [light] is. *)
Lemma toggle_twice_creates_entry :
  let t := Shared.theme (Shared.loaded Shared.SvgToCode ∅ ∅) in
  Shared.localStorage t !! "theme" = None
  /\ Shared.localStorage
       (Shared.themeToggle_click (Shared.themeToggle_click t)) !! "theme"
     = Some "light".
Proof. vm_compute. split; reflexivity. Qed.

Lemma click_when_dark root d l st :
  classList_contains "dark" root = true ->
  Shared.themeToggle_click
    {| Shared.documentElement := root; Shared.themeToggleDarkIcon := d;
       Shared.themeToggleLightIcon := l; Shared.localStorage := st |}
  = Shared.updateThemeIcons false
      {| Shared.documentElement := classList_remove "dark" root;
         Shared.themeToggleDarkIcon := d; Shared.themeToggleLightIcon := l;
         Shared.localStorage := <["theme" := "light"]> st |}.
Proof.
  intros E. unfold Shared.themeToggle_click, classList_toggle; simpl.
  now rewrite E.
Qed.

Lemma click_when_light root d l st :
  classList_contains "dark" root = false ->
  Shared.themeToggle_click
    {| Shared.documentElement := root; Shared.themeToggleDarkIcon := d;
       Shared.themeToggleLightIcon := l; Shared.localStorage := st |}
  = Shared.updateThemeIcons true
      {| Shared.documentElement := classList_add "dark" root;
         Shared.themeToggleDarkIcon := d; Shared.themeToggleLightIcon := l;
         Shared.localStorage := <["theme" := "dark"]> st |}.
Proof.
  intros E. unfold Shared.themeToggle_click, classList_toggle; simpl.
  now rewrite E.
Qed.

Lemma standalone_icons_when_dark root d l st :
  classList_contains "dark" root = true ->
  Standalone.updateThemeIcons
    {| Standalone.documentElement := root;
       Standalone.themeToggleDarkIcon := d;
       Standalone.themeToggleLightIcon := l;
       Standalone.localStorage := st |}
  = {| Standalone.documentElement := root;
       Standalone.themeToggleDarkIcon := classList_add "hidden" d;
       Standalone.themeToggleLightIcon := classList_remove "hidden" l;
       Standalone.localStorage := st |}.
Proof.
  intros E. unfold Standalone.updateThemeIcons.
  cbn [Standalone.documentElement]. now rewrite E.
Qed.

Lemma standalone_icons_when_light root d l st :
  classList_contains "dark" root = false ->
  Standalone.updateThemeIcons
    {| Standalone.documentElement := root;
       Standalone.themeToggleDarkIcon := d;
       Standalone.themeToggleLightIcon := l;
       Standalone.localStorage := st |}
  = {| Standalone.documentElement := root;
       Standalone.themeToggleDarkIcon := classList_remove "hidden" d;
       Standalone.themeToggleLightIcon := classList_add "hidden" l;
       Standalone.localStorage := st |}.
Proof.
  intros E. unfold Standalone.updateThemeIcons.
  cbn [Standalone.documentElement]. now rewrite E.
Qed.

Lemma standalone_click_when_dark root d l st :
  classList_contains "dark" root = true ->
  Standalone.themeToggle_click
    {| Standalone.documentElement := root;
       Standalone.themeToggleDarkIcon := d;
       Standalone.themeToggleLightIcon := l;
       Standalone.localStorage := st |}
  = {| Standalone.documentElement := classList_remove "dark" root;
       Standalone.themeToggleDarkIcon := classList_remove "hidden" d;
       Standalone.themeToggleLightIcon := classList_add "hidden" l;
       Standalone.localStorage := <["theme" := "light"]> st |}.
Proof.
  intros E. unfold Standalone.themeToggle_click, classList_toggle.
  cbn [Standalone.documentElement Standalone.themeToggleDarkIcon
       Standalone.themeToggleLightIcon Standalone.localStorage].
  rewrite E. cbn [fst]. rewrite contains_remove.
  apply standalone_icons_when_light, contains_remove.
Qed.

Lemma standalone_click_when_light root d l st :
  classList_contains "dark" root = false ->
  Standalone.themeToggle_click
    {| Standalone.documentElement := root;
       Standalone.themeToggleDarkIcon := d;
       Standalone.themeToggleLightIcon := l;
       Standalone.localStorage := st |}
  = {| Standalone.documentElement := classList_add "dark" root;
       Standalone.themeToggleDarkIcon := classList_add "hidden" d;
       Standalone.themeToggleLightIcon := classList_remove "hidden" l;
       Standalone.localStorage := <["theme" := "dark"]> st |}.
Proof.
  intros E. unfold Standalone.themeToggle_click, classList_toggle.
  cbn [Standalone.documentElement Standalone.themeToggleDarkIcon
       Standalone.themeToggleLightIcon Standalone.localStorage].
  rewrite E. cbn [fst]. rewrite contains_add.
  apply standalone_icons_when_dark, contains_add.
Qed.

Lemma toggle_settles_standalone (t : Standalone.Theme) :
  themeSettled_standalone (Standalone.themeToggle_click t).
Proof.
  destruct t as [root dark light store]. unfold themeSettled_standalone.
  destruct (classList_contains "dark" root) eqn:E.
  - rewrite (standalone_click_when_dark _ _ _ _ E).
    cbn [Standalone.documentElement Standalone.localStorage].
    rewrite contains_remove, lookup_insert_eq. split; [reflexivity|].
    rewrite standalone_icons_when_light by apply contains_remove.
    now autorewrite with tokens.
  - rewrite (standalone_click_when_light _ _ _ _ E).
    cbn [Standalone.documentElement Standalone.localStorage].
    rewrite contains_add, lookup_insert_eq. split; [reflexivity|].
    rewrite standalone_icons_when_dark by apply contains_add.
    now autorewrite with tokens.
Qed.

(** C8, amended: from a settled theme (the stored entry mirrors the
    root's [dark] class, the icons are as [updateThemeIcons] leaves them),
    two clicks on the toggle give back the very same theme: root classes,
    stored entry and both icons; in the shared script and in the
    self-contained one. *)
Theorem toggle_twice_restores (t : Shared.Theme) (u : Standalone.Theme) :
  themeSettled t ->
  themeSettled_standalone u ->
  Shared.themeToggle_click (Shared.themeToggle_click t) = t
  /\ Standalone.themeToggle_click (Standalone.themeToggle_click u) = u.
Proof.
  intros [Hstore Hicons] [Hstore' Hicons']. split.
  - destruct t as [root dark light store]; simpl in *.
    unfold Shared.initThemeIcons in Hicons; simpl in Hicons.
    destruct (classList_contains "dark" root) eqn:E.
    + rewrite (click_when_dark _ _ _ _ E).
      unfold Shared.updateThemeIcons in *; simpl in *.
      destruct dark as [dark|], light as [light|]; simpl in *;
        rewrite click_when_light by apply contains_remove;
        unfold Shared.updateThemeIcons; simpl;
        rewrite add_remove, (add_present _ _ (proj1 (contains_true _ _) E)),
          insert_insert_eq, (insert_id _ _ _ Hstore);
        autorewrite with tokens; try reflexivity.
      injection Hicons as Hd Hl. now rewrite Hd, Hl.
    + rewrite (click_when_light _ _ _ _ E).
      unfold Shared.updateThemeIcons in *; simpl in *.
      destruct dark as [dark|], light as [light|]; simpl in *;
        rewrite click_when_dark by apply contains_add;
        unfold Shared.updateThemeIcons; simpl;
        rewrite remove_add, (remove_absent _ _ (proj1 (contains_false _ _) E)),
          insert_insert_eq, (insert_id _ _ _ Hstore);
        autorewrite with tokens; try reflexivity.
      injection Hicons as Hd Hl. now rewrite Hd, Hl.
  - destruct u as [root dark light store].
    unfold themeSettled_standalone in *.
    cbn [Standalone.documentElement Standalone.localStorage] in Hstore'.
    destruct (classList_contains "dark" root) eqn:E.
    + rewrite (standalone_click_when_dark _ _ _ _ E).
      rewrite standalone_click_when_light by apply contains_remove.
      rewrite (standalone_icons_when_dark _ _ _ _ E) in Hicons'.
      injection Hicons' as Hd Hl.
      autorewrite with tokens.
      rewrite Hd, Hl, insert_insert_eq, (insert_id _ _ _ Hstore').
      f_equal. apply add_present, contains_true, E.
    + rewrite (standalone_click_when_light _ _ _ _ E).
      rewrite standalone_click_when_dark by apply contains_add.
      rewrite (standalone_icons_when_light _ _ _ _ E) in Hicons'.
      injection Hicons' as Hd Hl.
      autorewrite with tokens.
      rewrite Hd, Hl, insert_insert_eq, (insert_id _ _ _ Hstore').
      f_equal. apply remove_absent, contains_false, E.
Qed.

Lemma toggle_twice_restores_witness :
  let t := Shared.theme
             (Shared.loaded Shared.SvgToCode {[ "dark" ]}
                {[ "theme" := "dark" ]}) in
  let u := Standalone.theme
             (Standalone.loaded {[ "dark" ]} {[ "theme" := "dark" ]}) in
  themeSettled t /\ themeSettled_standalone u
  /\ Shared.themeToggle_click (Shared.themeToggle_click t) = t
  /\ Standalone.themeToggle_click (Standalone.themeToggle_click u) = u.
Proof.
  assert (H1 : themeSettled
                 (Shared.theme
                    (Shared.loaded Shared.SvgToCode {[ "dark" ]}
                       {[ "theme" := "dark" ]})))
    by (split; vm_compute; reflexivity).
  assert (H2 : themeSettled_standalone
                 (Standalone.theme
                    (Standalone.loaded {[ "dark" ]} {[ "theme" := "dark" ]})))
    by (split; vm_compute; reflexivity).
  split; [exact H1|]. split; [exact H2|].
  exact (toggle_twice_restores _ _ H1 H2).
Defined.

(** ** Pending reads *)

Lemma state_eta (s : Shared.State) :
  {| Shared.theme := Shared.theme s; Shared.view := Shared.view s;
     Shared.notification := Shared.notification s;
     Shared.dropZone := Shared.dropZone s;
     Shared.themeToggleBtn := Shared.themeToggleBtn s;
     Shared.clearBtn := Shared.clearBtn s; Shared.copyBtn := Shared.copyBtn s;
     Shared.msgbox := Shared.msgbox s; Shared.nextOverlay := Shared.nextOverlay s;
     Shared.currentSvgContent := Shared.currentSvgContent s;
     Shared.tasks := Shared.tasks s; Shared.clipboard := Shared.clipboard s;
     Shared.downloads := Shared.downloads s |} = s.
Proof. now destruct s. Qed.

Lemma finish_after_start (t : Shared.Task) (s : Shared.State) :
  Shared.finish_task (length (Shared.tasks s))
    (Shared.set_tasks (fun l => l ++ [t]) s) = s.
Proof.
  destruct s. unfold Shared.finish_task, Shared.set_tasks; simpl.
  now rewrite delete_middle, app_nil_r.
Qed.

Lemma lookup_after_start (t : Shared.Task) (s : Shared.State) :
  Shared.tasks (Shared.set_tasks (fun l => l ++ [t]) s)
    !! length (Shared.tasks s) = Some t.
Proof. simpl. apply list_lookup_middle. reflexivity. Qed.

(** ** The event loop *)

Section EventLoop.

Variable parseFromString : string -> Node.

Lemma run_app (s : Shared.State) (a b : list Shared.Event) :
  Shared.run parseFromString s (a ++ b)
  = Shared.run parseFromString s a
      ≫= fun s' => Shared.run parseFromString s' b.
Proof.
  revert s. induction a as [|e a IH]; intros s; simpl; [reflexivity|].
  destruct (Shared.step parseFromString s e); simpl; [apply IH|reflexivity].
Qed.

(** A property kept by every turn of the loop is kept by every run. *)
Lemma run_invariant (Inv : Shared.State -> Prop) :
  (forall s e s',
     Inv s -> Shared.step parseFromString s e = Some s' -> Inv s') ->
  forall trace s s',
    Inv s -> Shared.run parseFromString s trace = Some s' -> Inv s'.
Proof.
  intros Hstep trace.
  induction trace as [|e trace IH]; intros s s' H0 Hrun; simpl in Hrun.
  - now injection Hrun as <-.
  - destruct (Shared.step parseFromString s e) as [s1|] eqn:E;
      [|discriminate].
    exact (IH s1 s' (Hstep s e s1 H0 E) Hrun).
Qed.

End EventLoop.

(** ** Clear *)

Section Clear.

Variable parseFromString : string -> Node.

(** C9: with the placeholder showing, a click on Clear changes nothing
    at all and opens no dialog. With a result showing, it opens the
    "Confirm Clear" dialog with its two buttons; closing the dialog by a
    click on the overlay, or on Cancel, resolves to [false]: once the
    overlay has gone the state is the one before the click (up to the
    overlay counter), so no reset took place. *)
Theorem clear_prompts_only_on_result (s r : Shared.State) :
  Shared.clearBtn s = true ->
  Shared.isPlaceholder s = true ->
  Shared.clearBtn r = true ->
  Shared.isResult r = true ->
  Shared.step parseFromString s Shared.ClearClick = Some s
  /\ (exists m,
        Shared.msgbox <$> Shared.step parseFromString r Shared.ClearClick
        = Some (Some m)
        /\ Shared.title m = "Confirm Clear"
        /\ Shared.isConfirm m = true
        /\ Shared.closing m = None
        /\ Shared.awaiting m = Shared.AwaitClear)
  /\ Shared.run parseFromString r
       [Shared.ClearClick; Shared.MsgBoxOverlayClick;
        Shared.MsgBoxTransitionEnd]
     = Some (Shared.set_msgbox None (S (Shared.nextOverlay r)) r)
  /\ Shared.run parseFromString r
       [Shared.ClearClick; Shared.MsgBoxCancel; Shared.MsgBoxTransitionEnd]
     = Some (Shared.set_msgbox None (S (Shared.nextOverlay r)) r).
Proof.
  intros Hs Hp Hr Hres.
  unfold Shared.isPlaceholder in Hp. apply andb_true_iff in Hp as [Hp _].
  unfold Shared.isResult in Hres. apply andb_true_iff in Hres as [Hres _].
  split.
  { simpl. rewrite Hs. unfold Shared.clearBtn_click. now rewrite Hp. }
  assert (Hclick : Shared.clearBtn_click r
                   = Shared.showMsgBox "Confirm Clear"
                       "Are you sure you want to clear the current SVG?"
                       true Shared.AwaitClear r).
  { unfold Shared.clearBtn_click. now rewrite Hres. }
  split.
  { simpl. rewrite Hr, Hclick. simpl. eexists. split; [reflexivity|].
    simpl. repeat split. }
  split; simpl; rewrite Hr, Hclick; reflexivity.
Qed.

End Clear.

Lemma clear_prompts_only_on_result_witness :
  let s := Shared.loaded Shared.SvgToCode ∅ ∅ in
  let r := Shared.svgReader_onload stubParser "<svg></svg>" s in
  Shared.step stubParser s Shared.ClearClick = Some s
  /\ Shared.run stubParser r
       [Shared.ClearClick; Shared.MsgBoxOverlayClick;
        Shared.MsgBoxTransitionEnd]
     = Some (Shared.set_msgbox None (S (Shared.nextOverlay r)) r).
Proof.
  intros s r.
  destruct (clear_prompts_only_on_result stubParser s r) as (H1 & _ & H2 & _).
  - reflexivity.
  - vm_compute; reflexivity.
  - reflexivity.
  - vm_compute; reflexivity.
  - split; [exact H1 | exact H2].
Defined.


(** ** The SVG processor *)

Section SvgProcessor.

Variable parseFromString : string -> Node.

(** A selected SVG file on the SVG page: the read is started and, when it
    completes, [reader.onload] runs on the state the selection left. *)
Lemma run_svg_read (s : Shared.State) (f : File) (text : string) :
  type f = "image/svg+xml" ->
  Shared.hasFileInput s = true ->
  onPage Shared.SvgToCode s ->
  Shared.run parseFromString s
    [Shared.FileInputChange (Some f);
     Shared.ReaderLoad (length (Shared.tasks s)) text]
  = Some (Shared.svgReader_onload parseFromString text
            (Shared.fileInput_select (Some f) s)).
Proof.
  intros Hty Hin [Hsvg Himg].
  set (s1 := Shared.fileInput_select (Some f) s).
  assert (H1 : Shared.fileInput_change (Some f) s1
               = Shared.set_tasks (fun l => l ++ [Shared.SvgReader]) s1).
  { unfold Shared.fileInput_change.
    replace (Shared.svgPage s1) with true by (symmetry; exact Hsvg).
    unfold Shared.processSvgFile. rewrite Hty. simpl.
    replace (Shared.imagePage _) with false by (symmetry; exact Himg).
    reflexivity. }
  unfold Shared.run, Shared.step.
  unfold Shared.hasFileInput in Hin.
  destruct (Shared.fileInput (Shared.view s)) eqn:E; [|discriminate].
  fold s1. rewrite H1.
  change (length (Shared.tasks s)) with (length (Shared.tasks s1)).
  rewrite lookup_after_start, finish_after_start. reflexivity.
Qed.

Lemma svgPage_code (s : Shared.State) :
  Shared.svgPage s = true -> exists old, Shared.svgCode (Shared.view s) = Some old.
Proof.
  unfold Shared.svgPage. destruct (Shared.svgCode (Shared.view s)); [eauto|discriminate].
Qed.

(** C1, amended: a file of type [image/svg+xml] chosen on the SVG page,
    whose text the parser accepts (no [parsererror] element in the parsed
    document), is processed to the end: the page shows the Result and no
    notification is raised, and the code area's value is the text the
    reader delivered (the file decoded as UTF-8) with its newlines
    normalised, every CR LF pair and every other CR being read back as LF.
    The self-contained script does the same for any text, and the source
    of its preview image is the data URI of the text as read. The value
    is the text byte for byte exactly when the text holds no CR. *)
Theorem valid_svg_is_stored_normalised
    (s : Shared.State) (u : Standalone.State) (f : File) (text : string) :
  type f = "image/svg+xml" ->
  Shared.hasFileInput s = true ->
  onPage Shared.SvgToCode s ->
  querySelector "parsererror" (parseFromString text) = None ->
  (exists s',
     Shared.run parseFromString s
       [Shared.FileInputChange (Some f);
        Shared.ReaderLoad (length (Shared.tasks s)) text] = Some s'
     /\ Shared.isResult s' = true
     /\ Shared.svgCode (Shared.view s') = Some (normalizeNewlines text)
     /\ Shared.notification s' = Shared.notification s
     /\ Shared.tasks s' = Shared.tasks s)
  /\ (exists u',
        Standalone.run u
          [Standalone.FileInputChange (Some f); Standalone.ReaderLoad text]
        = Some u'
        /\ Standalone.isResult u' = true
        /\ Standalone.svgCode u' = normalizeNewlines text
        /\ Standalone.svgPreview u'
           = ["data:image/svg+xml," +:+ encodeURIComponent text]
        /\ Standalone.alerts u' = Standalone.alerts u)
  /\ (normalizeNewlines text = text <-> hasNoCR text = true).
Proof.
  intros Hty Hin Hpage Hok. pose proof Hpage as [Hsvg Himg]. split.
  - rewrite run_svg_read by assumption.
    eexists. split; [reflexivity|].
    destruct (svgPage_code s Hsvg) as [old Hold].
    unfold Shared.svgReader_onload, Shared.svgReader_try.
    rewrite Hok. unfold Shared.isResult. simpl.
    autorewrite with tokens. rewrite Hold. repeat split.
  - split; [|apply normalize_fixed_iff].
    unfold Standalone.run, Standalone.step, Standalone.handleFile.
    rewrite Hty. simpl. eexists. split; [reflexivity|].
    unfold Standalone.isResult. simpl. autorewrite with tokens.
    repeat split.
Qed.

(** C2, amended: in the shared script, a file of type [image/svg+xml]
    chosen on the SVG page whose parsed text holds a [parsererror] element
    is rejected: the notification reads "Malformed SVG file." and is
    shown, and the page is back at the Placeholder with the preview, the
    code area and the file input emptied. *)
Theorem malformed_svg_is_rejected
    (s : Shared.State) (f : File) (text : string) :
  type f = "image/svg+xml" ->
  Shared.hasFileInput s = true ->
  onPage Shared.SvgToCode s ->
  querySelector "parsererror" (parseFromString text) <> None ->
  exists s',
    Shared.run parseFromString s
      [Shared.FileInputChange (Some f);
       Shared.ReaderLoad (length (Shared.tasks s)) text] = Some s'
    /\ Shared.isPlaceholder s' = true
    /\ Shared.textContent (Shared.notification s') = "Malformed SVG file."
    /\ "show" ∈ Shared.className (Shared.notification s')
    /\ "error" ∈ Shared.className (Shared.notification s')
    /\ Shared.svgCode (Shared.view s') = Some ""
    /\ Shared.svgPreview (Shared.view s') = ""
    /\ Shared.fileInput (Shared.view s') = Some "".
Proof.
  intros Hty Hin Hpage Hbad. pose proof Hpage as [Hsvg Himg].
  rewrite run_svg_read by assumption.
  eexists. split; [reflexivity|].
  destruct (svgPage_code s Hsvg) as [old Hold].
  unfold Shared.svgReader_onload, Shared.svgReader_try.
  destruct (querySelector "parsererror" (parseFromString text));
    [|congruence].
  split; [apply resetView_placeholder|].
  simpl. rewrite Hold. unfold Shared.hasFileInput in Hin.
  destruct (Shared.fileInput (Shared.view s)); [|discriminate].
  unfold classList_add. repeat split; set_solver.
Qed.

End SvgProcessor.

(** C1, as stated, fails for a text with a Windows line ending: the text
    is accepted and shown, but the code area's value holds LF where the
    text holds CR LF, in both scripts. *)
Lemma crlf_svg_is_not_stored_verbatim :
  (fun s' => (Shared.isResult s', Shared.svgCode (Shared.view s')))
    <$> Shared.run stubParser (Shared.loaded Shared.SvgToCode ∅ ∅)
          [Shared.FileInputChange (Some iconFile);
           Shared.ReaderLoad 0 crlfSvg]
  = Some (true, Some lfSvg)
  /\ (fun u' => (Standalone.isResult u', Standalone.svgCode u'))
       <$> Standalone.run (Standalone.loaded ∅ ∅)
             [Standalone.FileInputChange (Some iconFile);
              Standalone.ReaderLoad crlfSvg]
     = Some (true, lfSvg)
  /\ lfSvg <> crlfSvg.
Proof.
  split; [vm_compute; reflexivity|].
  split; [vm_compute; reflexivity|]. vm_compute. discriminate.
Qed.

Lemma valid_svg_is_stored_normalised_witness :
  exists s',
    Shared.run stubParser (Shared.loaded Shared.SvgToCode ∅ ∅)
      [Shared.FileInputChange (Some iconFile); Shared.ReaderLoad 0 crlfSvg]
    = Some s'
    /\ Shared.isResult s' = true
    /\ Shared.svgCode (Shared.view s') = Some (normalizeNewlines crlfSvg).
Proof.
  destruct (valid_svg_is_stored_normalised stubParser
              (Shared.loaded Shared.SvgToCode ∅ ∅) (Standalone.loaded ∅ ∅)
              iconFile crlfSvg) as [(s' & Hrun & Hres & Hcode & _) _].
  - reflexivity.
  - reflexivity.
  - split; reflexivity.
  - vm_compute; reflexivity.
  - exists s'. repeat split; assumption.
Defined.

(** C2, as stated, fails in the self-contained script, which never parses
    what it reads: the text [<svg], which is not well-formed XML, read
    from a file of type [image/svg+xml], is shown as a Result and no alert
    is raised. *)
Lemma standalone_shows_malformed_svg :
  exists u',
    Standalone.run (Standalone.loaded ∅ ∅)
      [Standalone.FileInputChange (Some iconFile);
       Standalone.ReaderLoad "<svg"] = Some u'
    /\ Standalone.isResult u' = true
    /\ Standalone.svgCode u' = "<svg"
    /\ Standalone.alerts u' = [].
Proof. eexists. split; [reflexivity|]. vm_compute. repeat split. Qed.

Lemma malformed_svg_is_rejected_witness :
  exists s',
    Shared.run stubParser (Shared.loaded Shared.SvgToCode ∅ ∅)
      [Shared.FileInputChange (Some iconFile); Shared.ReaderLoad 0 "<svg"]
    = Some s'
    /\ Shared.isPlaceholder s' = true
    /\ Shared.textContent (Shared.notification s') = "Malformed SVG file.".
Proof.
  destruct (malformed_svg_is_rejected stubParser
              (Shared.loaded Shared.SvgToCode ∅ ∅) iconFile "<svg")
    as (s' & Hrun & Hp & Htext & _).
  - reflexivity.
  - reflexivity.
  - split; reflexivity.
  - vm_compute; discriminate.
  - exists s'. repeat split; assumption.
Defined.

(** ** The image wrapper *)

Section ImageWrapper.

Variable parseFromString : string -> Node.

Lemma run_image_read (s : Shared.State) (f : File) (url : string) :
  String.prefix "image/" (type f) = true ->
  Shared.hasFileInput s = true ->
  onPage Shared.ImageToSvg s ->
  Shared.run parseFromString s
    [Shared.FileInputChange (Some f);
     Shared.ReaderLoad (length (Shared.tasks s)) url]
  = Some (Shared.set_tasks (fun l => l ++ [Shared.ImageDecode url])
            (Shared.fileInput_select (Some f) s)).
Proof.
  intros Hty Hin [Hsvg Himg].
  set (s1 := Shared.fileInput_select (Some f) s).
  assert (H1 : Shared.fileInput_change (Some f) s1
               = Shared.set_tasks (fun l => l ++ [Shared.ImageReader]) s1).
  { unfold Shared.fileInput_change.
    replace (Shared.svgPage s1) with false by (symmetry; exact Hsvg).
    replace (Shared.imagePage s1) with true by (symmetry; exact Himg).
    unfold Shared.processImageFile. now rewrite Hty. }
  unfold Shared.run, Shared.step.
  unfold Shared.hasFileInput in Hin.
  destruct (Shared.fileInput (Shared.view s)) eqn:E; [|discriminate].
  fold s1. rewrite H1.
  change (length (Shared.tasks s)) with (length (Shared.tasks s1)).
  rewrite lookup_after_start, finish_after_start. reflexivity.
Qed.

Lemma append_assoc (a b c : string) : (a +:+ b) +:+ c = a +:+ (b +:+ c).
Proof.
  induction a as [|ch a IH]; [reflexivity|].
  change (String ch ((a +:+ b) +:+ c) = String ch (a +:+ (b +:+ c))).
  now rewrite IH.
Qed.

Lemma wrapperSvg_shape (W H : N) (href : string) :
  Shared.wrapperSvg W H href
  = svgRootTag W H +:+ newline +:+ "  " +:+ imageElement href W H
    +:+ newline +:+ "</svg>".
Proof.
  unfold Shared.wrapperSvg, svgRootTag, imageElement.
  now rewrite !append_assoc.
Qed.

(** C4: an image file chosen on the image page is read as a data URL and
    decoded; when the decoded image reports width [W] and height [H], the
    page shows the Result and the cached SVG, which is also the preview,
    is the root tag declaring [width=W], [height=H] and
    [viewBox="0 0 W H"], followed by exactly one [image] element that
    refers to the data URL with the same width and height, and the closing
    tag. *)
Theorem wrapper_declares_image_size
    (s : Shared.State) (f : File) (url : string) (W H : N) :
  String.prefix "image/" (type f) = true ->
  Shared.hasFileInput s = true ->
  onPage Shared.ImageToSvg s ->
  exists s',
    Shared.run parseFromString s
      [Shared.FileInputChange (Some f);
       Shared.ReaderLoad (length (Shared.tasks s)) url;
       Shared.ImageLoad (length (Shared.tasks s)) W H] = Some s'
    /\ Shared.isResult s' = true
    /\ Shared.currentSvgContent s'
       = svgRootTag W H +:+ newline +:+ "  " +:+ imageElement url W H
         +:+ newline +:+ "</svg>"
    /\ Shared.svgPreview (Shared.view s') = Shared.currentSvgContent s'
    /\ Shared.tasks s' = Shared.tasks s.
Proof.
  intros Hty Hin Hpage.
  pose proof (run_image_read s f url Hty Hin Hpage) as Hrun.
  set (s1 := Shared.fileInput_select (Some f) s) in *.
  change [Shared.FileInputChange (Some f);
          Shared.ReaderLoad (length (Shared.tasks s)) url;
          Shared.ImageLoad (length (Shared.tasks s)) W H]
    with ([Shared.FileInputChange (Some f);
           Shared.ReaderLoad (length (Shared.tasks s)) url]
          ++ [Shared.ImageLoad (length (Shared.tasks s)) W H]).
  rewrite run_app, Hrun.
  unfold mbind, option_bind, Shared.run, Shared.step.
  change (length (Shared.tasks s)) with (length (Shared.tasks s1)).
  rewrite lookup_after_start, finish_after_start.
  eexists. split; [reflexivity|].
  unfold Shared.isResult. simpl. autorewrite with tokens.
  rewrite wrapperSvg_shape. repeat split.
Qed.

(** C6, the failing run: on the image page a first image (100 by 50) is
    wrapped and shown; a second file of an image type is then read but
    cannot be decoded. [img.onerror] raises the notification and nothing
    else: the page still shows the Result of the first image, and the
    cached SVG and the preview are still the first wrapper. *)
Theorem decode_failure_keeps_old_result :
  (fun s' => (Shared.textContent (Shared.notification s'),
              Shared.isResult s', Shared.isPlaceholder s',
              Shared.currentSvgContent s',
              Shared.svgPreview (Shared.view s')))
    <$> Shared.run parseFromString (Shared.loaded Shared.ImageToSvg ∅ ∅)
          [Shared.FileInputChange (Some photoFile);
           Shared.ReaderLoad 0 photoUrl;
           Shared.ImageLoad 0 100 50;
           Shared.FileInputChange (Some photoFile);
           Shared.ReaderLoad 0 "data:image/png;base64,AAAA";
           Shared.ImageError 0]
  = Some ("Could not load the image file.", true, false,
          Shared.wrapperSvg 100 50 photoUrl,
          Shared.wrapperSvg 100 50 photoUrl).
Proof. vm_compute. reflexivity. Qed.

(** C5, the failing run: on the image page a first image is wrapped and
    shown; the read of a second file then fails. [reader.onerror] calls
    the shared [resetView], not the page's [window.resetView]: the page is
    back at the Placeholder while [currentSvgContent] still holds the
    first wrapper, which a click on Download then saves. *)
Theorem read_failure_keeps_cached_svg :
  (fun s' => (Shared.isPlaceholder s', Shared.isResult s',
              Shared.currentSvgContent s', Shared.downloads s'))
    <$> Shared.run parseFromString (Shared.loaded Shared.ImageToSvg ∅ ∅)
          [Shared.FileInputChange (Some photoFile);
           Shared.ReaderLoad 0 photoUrl;
           Shared.ImageLoad 0 100 50;
           Shared.FileInputChange (Some photoFile);
           Shared.ReaderError 0;
           Shared.DownloadClick]
  = Some (true, false, Shared.wrapperSvg 100 50 photoUrl,
          [("converted.svg", Shared.wrapperSvg 100 50 photoUrl)])
  /\ Shared.wrapperSvg 100 50 photoUrl <> "".
Proof. split; [vm_compute; reflexivity|vm_compute; discriminate]. Qed.

End ImageWrapper.

Lemma wrapper_declares_image_size_witness :
  exists s',
    Shared.run stubParser (Shared.loaded Shared.ImageToSvg ∅ ∅)
      [Shared.FileInputChange (Some photoFile);
       Shared.ReaderLoad 0 photoUrl;
       Shared.ImageLoad 0 100 50] = Some s'
    /\ Shared.isResult s' = true
    /\ Shared.currentSvgContent s'
       = svgRootTag 100 50 +:+ newline +:+ "  "
         +:+ imageElement photoUrl 100 50 +:+ newline +:+ "</svg>".
Proof.
  destruct (wrapper_declares_image_size stubParser
              (Shared.loaded Shared.ImageToSvg ∅ ∅) photoFile photoUrl
              100 50) as (s' & Hrun & Hres & Hcontent & _).
  - reflexivity.
  - reflexivity.
  - split; reflexivity.
  - exists s'. repeat split; assumption.
Defined.

(** The scenario of the specification: for a 100 by 50 image the root tag
    reads [width="100" height="50" viewBox="0 0 100 50"]. *)
Example root_tag_100_50 :
  svgRootTag 100 50
  = "<svg xmlns=" +:+ dquote +:+ "http://www.w3.org/2000/svg" +:+ dquote
    +:+ " width=" +:+ dquote +:+ "100" +:+ dquote
    +:+ " height=" +:+ dquote +:+ "50" +:+ dquote
    +:+ " viewBox=" +:+ dquote +:+ "0 0 100 50" +:+ dquote +:+ ">".
Proof. vm_compute. reflexivity. Qed.


(** ** File intake *)

(** C3, as stated, fails on both pages of the shared script: on the SVG
    page a PNG file is rejected, where the rule sends it to the image
    wrapper; on the image page an SVG file is read by the image wrapper,
    where the rule sends it to the SVG processor. *)
Lemma intake_does_not_route_by_type :
  let svgPage0 :=
    Shared.fileInput_select (Some photoFile)
      (Shared.loaded Shared.SvgToCode ∅ ∅) in
  let imagePage0 :=
    Shared.fileInput_select (Some iconFile)
      (Shared.loaded Shared.ImageToSvg ∅ ∅) in
  (spec_route (type photoFile) = ToImageWrapper
   /\ route_taken svgPage0 (Shared.fileInput_change (Some photoFile) svgPage0)
      = InvalidFileType)
  /\ (spec_route (type iconFile) = ToSvgProcessor
      /\ route_taken imagePage0
           (Shared.fileInput_change (Some iconFile) imagePage0)
         = ToImageWrapper).
Proof. vm_compute. repeat split. Qed.

(** C3, amended: the shared script picks the processor by the page, not
    by the file. On the SVG page a file whose type is exactly
    [image/svg+xml] is read as text and every other file is rejected with
    "Invalid file type. Please upload an SVG."; on the image page a file
    whose type starts with [image/] (an SVG included) is read as a data
    URL and every other file is rejected with "Invalid file type. Please
    upload a PNG or JPG.". The self-contained script reads a file of type
    [image/svg+xml] and answers any other with its alert box. In all
    cases the containers, the preview, the code area and the cached SVG
    are untouched by the intake itself. *)
Theorem intake_routes_by_page
    (p : Shared.Page) (s : Shared.State) (u : Standalone.State) (f : File) :
  onPage p s ->
  document_state (Shared.fileInput_change (Some f) s) = document_state s
  /\ (if accepts p (type f)
      then Shared.tasks (Shared.fileInput_change (Some f) s)
           = Shared.tasks s ++ [reader_of p]
           /\ Shared.notification (Shared.fileInput_change (Some f) s)
              = Shared.notification s
      else Shared.tasks (Shared.fileInput_change (Some f) s) = Shared.tasks s
           /\ Shared.textContent
                (Shared.notification (Shared.fileInput_change (Some f) s))
              = rejection_of p
           /\ "show" ∈ Shared.className
                (Shared.notification (Shared.fileInput_change (Some f) s)))
  /\ (Standalone.uploadView (Standalone.handleFile (Some f) u),
      Standalone.previewContainer (Standalone.handleFile (Some f) u),
      Standalone.svgPreview (Standalone.handleFile (Some f) u),
      Standalone.svgCode (Standalone.handleFile (Some f) u))
     = (Standalone.uploadView u, Standalone.previewContainer u,
        Standalone.svgPreview u, Standalone.svgCode u)
  /\ (if String.eqb (type f) "image/svg+xml"
      then Standalone.readers (Standalone.handleFile (Some f) u)
           = S (Standalone.readers u)
           /\ Standalone.alerts (Standalone.handleFile (Some f) u)
              = Standalone.alerts u
      else Standalone.readers (Standalone.handleFile (Some f) u)
           = Standalone.readers u
           /\ Standalone.alerts (Standalone.handleFile (Some f) u)
              = tail (Standalone.alerts u) ++ [Standalone.nextAlert u]).
Proof.
  intros Hpage.
  assert (Hshared :
    Shared.fileInput_change (Some f) s
    = if accepts p (type f)
      then Shared.set_tasks (fun l => l ++ [reader_of p]) s
      else Shared.showNotification (rejection_of p) "error" s).
  { unfold Shared.fileInput_change.
    destruct p; destruct Hpage as [Hsvg Himg]; rewrite Hsvg.
    - unfold Shared.processSvgFile, accepts, reader_of, rejection_of.
      destruct (String.eqb (type f) "image/svg+xml");
        cbn [negb]; [change (Shared.imagePage (Shared.set_tasks _ s))
                       with (Shared.imagePage s)
                    |change (Shared.imagePage (Shared.showNotification _ _ s))
                       with (Shared.imagePage s)];
        now rewrite Himg.
    - rewrite Himg.
      unfold Shared.processImageFile, accepts, reader_of, rejection_of.
      now destruct (String.prefix "image/" (type f)). }
  rewrite Hshared.
  split; [now destruct (accepts p (type f))|].
  split.
  { destruct (accepts p (type f)); [split; reflexivity|].
    split; [reflexivity|]. split; [reflexivity|].
    cbn [Shared.showNotification Shared.set_notification Shared.notification
         Shared.className].
    unfold classList_add. set_solver. }
  unfold Standalone.handleFile.
  destruct (String.eqb (type f) "image/svg+xml"); split;
    try reflexivity; split; reflexivity.
Qed.

Lemma intake_routes_by_page_witness :
  let s := Shared.fileInput_select (Some photoFile)
             (Shared.loaded Shared.SvgToCode ∅ ∅) in
  document_state (Shared.fileInput_change (Some photoFile) s)
  = document_state s
  /\ Shared.tasks (Shared.fileInput_change (Some photoFile) s) = []
  /\ Shared.textContent
       (Shared.notification (Shared.fileInput_change (Some photoFile) s))
     = "Invalid file type. Please upload an SVG.".
Proof.
  intros s.
  destruct (intake_routes_by_page Shared.SvgToCode s (Standalone.loaded ∅ ∅)
              photoFile) as (Hdoc & Hroute & _).
  - split; reflexivity.
  - destruct Hroute as (Htasks & Htext & _).
    split; [exact Hdoc|]. split; [exact Htasks | exact Htext].
Defined.

(** ** The SVG page keeps text and view in step *)

Section SvgPageInvariant.

Variable parseFromString : string -> Node.

(** [DOMParser] answers the empty text with a [parsererror]. *)
Hypothesis empty_is_malformed :
  querySelector "parsererror" (parseFromString "") <> None.












End SvgPageInvariant.

(** ** Scenarios of the specification *)

(** A text file chosen on either page raises the invalid-type
    notification and leaves the page at the Placeholder. *)
Example text_file_is_rejected :
  (fun s' => (Shared.textContent (Shared.notification s'),
              Shared.isPlaceholder s', Shared.tasks s'))
    <$> Shared.run stubParser (Shared.loaded Shared.SvgToCode ∅ ∅)
          [Shared.FileInputChange (Some notesFile)]
  = Some ("Invalid file type. Please upload an SVG.", true, [])
  /\ (fun s' => (Shared.textContent (Shared.notification s'),
                 Shared.isPlaceholder s', Shared.tasks s'))
       <$> Shared.run stubParser (Shared.loaded Shared.ImageToSvg ∅ ∅)
             [Shared.FileInputChange (Some notesFile)]
     = Some ("Invalid file type. Please upload a PNG or JPG.", true, []).
Proof. split; vm_compute; reflexivity. Qed.

(** A file dropped on the drop zone of the shared script is not
    processed: the listener stops at the [ReferenceError], and the page
    stays as it was. *)
Example drop_is_not_processed :
  snd (Shared.dropZone_drop (Some iconFile)
         (Shared.loaded Shared.SvgToCode ∅ ∅))
  = Some "ReferenceError: processSvgFile is not defined"
  /\ Shared.step stubParser (Shared.loaded Shared.SvgToCode ∅ ∅)
       (Shared.Drop (Some iconFile))
     = Some (Shared.loaded Shared.SvgToCode ∅ ∅).
Proof. split; vm_compute; reflexivity. Qed.

(** The self-contained script shows whatever it reads: an empty file of
    type [image/svg+xml] gives a Result with an empty code area. *)
Example standalone_empty_file_is_shown :
  (fun u' => (Standalone.isResult u', Standalone.svgCode u'))
    <$> Standalone.run (Standalone.loaded ∅ ∅)
          [Standalone.FileInputChange (Some iconFile);
           Standalone.ReaderLoad ""]
  = Some (true, "").
Proof. vm_compute. reflexivity. Qed.

(** ** One turn of the loop, by its effect *)

Lemma step_effect (P : string -> Node) (s s' : Shared.State)
    (e : Shared.Event) :
  Shared.step P s e = Some s' -> effect P s s'.
Proof.
  intros Hstep. destruct e; cbn [Shared.step] in Hstep.
  - destruct (Shared.themeToggleBtn s); [|discriminate].
    injection Hstep as <-. now apply effect_frame.
  - destruct (Shared.fileInput (Shared.view s)); [|discriminate].
    injection Hstep as <-. apply effect_change.
  - destruct (Shared.dropZone s); [|discriminate].
    injection Hstep as <-. now apply effect_frame.
  - destruct (Shared.dropZone s); [|discriminate].
    injection Hstep as <-. now apply effect_frame.
  - destruct (Shared.dropZone s); [|discriminate].
    injection Hstep as <-. now apply effect_frame.
  - destruct (Shared.clearBtn s); [|discriminate].
    injection Hstep as <-. unfold Shared.clearBtn_click.
    destruct (negb _); now apply effect_frame.
  - destruct (Shared.svgPage s) eqn:E; [|discriminate].
    injection Hstep as <-. now apply effect_copy.
  - destruct (Shared.imagePage s) eqn:E; [|discriminate].
    injection Hstep as <-. now apply effect_download.
  - destruct (Shared.tasks s !! i) as [t|] eqn:E; [|discriminate].
    destruct t; try discriminate; injection Hstep as <-.
    + now apply effect_svg_load.
    + now apply effect_image_read.
  - destruct (Shared.tasks s !! i) as [t|] eqn:E; [|discriminate].
    destruct t; try discriminate; injection Hstep as <-;
      eapply effect_read_error; exact E.
  - destruct (Shared.tasks s !! i) as [t|] eqn:E; [|discriminate].
    destruct t; try discriminate; injection Hstep as <-.
    now apply effect_image_load.
  - destruct (Shared.tasks s !! i) as [t|] eqn:E; [|discriminate].
    destruct t; try discriminate; injection Hstep as <-.
    eapply effect_image_error; exact E.
  - destruct (Shared.tasks s !! i) as [t|] eqn:E; [|discriminate].
    destruct t; try discriminate; injection Hstep as <-.
    now apply effect_clipboard.
  - destruct (Shared.notificationTimeout (Shared.notification s));
      [|discriminate].
    injection Hstep as <-. now apply effect_frame.
  - injection Hstep as <-. unfold Shared.msgbox_showTimer.
    destruct (Shared.msgbox s) as [m|]; [|now apply effect_frame].
    destruct (Nat.eqb (Shared.overlayId m) id); now apply effect_frame.
  - destruct (Shared.msgbox s) as [m|] eqn:E; [|discriminate].
    injection Hstep as <-. unfold Shared.msgbox_close. rewrite E.
    now apply effect_frame.
  - destruct (Shared.msgbox s) as [m|] eqn:E; [|discriminate].
    destruct (Shared.isConfirm m); [|discriminate].
    injection Hstep as <-. unfold Shared.msgbox_close. rewrite E.
    now apply effect_frame.
  - destruct (Shared.msgbox s) as [m|] eqn:E; [|discriminate].
    injection Hstep as <-. unfold Shared.msgbox_close. rewrite E.
    now apply effect_frame.
  - destruct (Shared.msgbox s) as [m|] eqn:E; [|discriminate].
    injection Hstep as <-. unfold Shared.msgbox_transitionend. rewrite E.
    destruct (Shared.closing m) as [value|]; [|now apply effect_frame].
    unfold Shared.resume. destruct (Shared.awaiting m);
      [now apply effect_frame|].
    destruct value; [|now apply effect_frame].
    change (Shared.imagePage (Shared.set_msgbox None (Shared.nextOverlay s) s))
      with (Shared.imagePage s).
    pose proof (effect_cleared P s) as H.
    destruct (Shared.imagePage s); exact H.
Qed.

(** ** The view of the SVG page *)

Section SvgView.

Variable parseFromString : string -> Node.










End SvgView.

(** ** The view of the image page *)

Section ImageView.

Variable parseFromString : string -> Node.

Lemma wrapperSvg_nonempty (W H : N) (url : string) :
  Shared.wrapperSvg W H url <> "".
Proof. unfold Shared.wrapperSvg. discriminate. Qed.

Lemma pages_resetView (s : Shared.State) :
  Shared.svgPage (Shared.resetView s) = Shared.svgPage s
  /\ Shared.imagePage (Shared.resetView s) = Shared.imagePage s.
Proof.
  unfold Shared.svgPage, Shared.imagePage. simpl.
  destruct (Shared.svgCode (Shared.view s)),
           (Shared.downloadBtn (Shared.view s)); split; reflexivity.
Qed.

Lemma imagePageInv_loaded root storage :
  imagePageInv (Shared.loaded Shared.ImageToSvg root storage).
Proof.
  split; [split; reflexivity|]. split; [constructor|].
  split; [now left|]. right. split; reflexivity.
Qed.

Lemma imagePageInv_frame (s s' : Shared.State) :
  Shared.view s' = Shared.view s ->
  Shared.currentSvgContent s' = Shared.currentSvgContent s ->
  Shared.copyBtn s' = Shared.copyBtn s ->
  Forall (fun t => imageTask t = true) (Shared.tasks s') ->
  imagePageInv s -> imagePageInv s'.
Proof.
  intros Hv Hcur Hc Ht ([Hsvg Himg] & _ & Hcache & Hview).
  unfold imagePageInv, onPage, Shared.svgPage, Shared.imagePage,
    Shared.isResult, Shared.isPlaceholder in *.
  rewrite Hv, Hc, Hcur. repeat split; assumption.
Qed.

Lemma imagePageInv_finish (i : nat) (s : Shared.State) :
  imagePageInv s -> imagePageInv (Shared.finish_task i s).
Proof.
  intros H. apply (imagePageInv_frame s); try reflexivity; [|exact H].
  destruct H as (_ & Ht & _). simpl. now apply Forall_delete.
Qed.

Lemma imagePageInv_start (t : Shared.Task) (s : Shared.State) :
  imageTask t = true ->
  imagePageInv s -> imagePageInv (Shared.set_tasks (fun l => l ++ [t]) s).
Proof.
  intros Hi H. apply (imagePageInv_frame s); try reflexivity; [|exact H].
  destruct H as (_ & Ht & _). simpl.
  apply Forall_app. split; [exact Ht|]. repeat constructor. exact Hi.
Qed.

(** The shared reset brings the Placeholder back but keeps the cache. *)
Lemma imagePageInv_resetView (s : Shared.State) :
  imagePageInv s -> imagePageInv (Shared.resetView s).
Proof.
  intros ([Hsvg Himg] & Htasks & Hcache & _).
  destruct (pages_resetView s) as [Hs Hi].
  split; [split; congruence|]. split; [exact Htasks|].
  split; [exact Hcache|]. right. split; [apply resetView_placeholder|].
  reflexivity.
Qed.

(** The page's own reset empties the cache as well. *)
Lemma imagePageInv_window_resetView (s : Shared.State) :
  imagePageInv s -> imagePageInv (Shared.window_resetView s).
Proof.
  intros H. apply imagePageInv_resetView in H.
  destruct H as (Hpage & Htasks & _ & Hview).
  split; [exact Hpage|]. split; [exact Htasks|]. split; [now left|].
  right. destruct Hview as [(Hres & _)|Hph].
  - pose proof (resetView_placeholder s) as Hp.
    unfold Shared.isResult, Shared.isPlaceholder in *.
    destruct (classList_contains "hidden"
                (Shared.outputPlaceholder (Shared.view (Shared.resetView s))));
      discriminate.
  - exact Hph.
Qed.

Lemma imagePageInv_img_onload (W H : N) (src : string) (s : Shared.State) :
  imagePageInv s -> imagePageInv (Shared.img_onload W H src s).
Proof.
  intros ([Hsvg Himg] & Htasks & _).
  split; [split; assumption|]. split; [exact Htasks|].
  assert (Hw : isWrapper (Shared.wrapperSvg W H src)) by (now exists W, H, src).
  split; [now right|]. left. split; [|split; [reflexivity|exact Hw]].
  unfold Shared.isResult. simpl. now autorewrite with tokens.
Qed.

Lemma imagePageInv_change (file : option File) (s : Shared.State) :
  imagePageInv s ->
  imagePageInv (Shared.fileInput_change file (Shared.fileInput_select file s)).
Proof.
  intros H.
  assert (H1 : imagePageInv (Shared.fileInput_select file s)).
  { destruct H as ([Hsvg Himg] & Htasks & Hcache & Hview).
    repeat split; assumption. }
  revert H1. generalize (Shared.fileInput_select file s) as s1.
  intros s1 H1. pose proof H1 as ([Hsvg Himg] & _).
  unfold Shared.fileInput_change. rewrite Hsvg, Himg.
  unfold Shared.processImageFile. destruct file as [f|]; [|exact H1].
  destruct (negb (String.prefix "image/" (type f))).
  - apply (imagePageInv_frame s1); try reflexivity; [|exact H1].
    now destruct H1 as (_ & Ht & _).
  - now apply imagePageInv_start.
Qed.

Lemma imagePageInv_effect (s s' : Shared.State) :
  imagePageInv s -> effect parseFromString s s' -> imagePageInv s'.
Proof.
  intros H Heff. pose proof H as ([Hsvg Himg] & Htasks & _).
  destruct Heff as [s' Hv Hcur Hc Ht _ | file | Hs | _ | i result E
                   | i result E | i t E | i w h src E | i src E
                   | i ok text E | ].
  - apply (imagePageInv_frame s); try assumption. now rewrite Ht.
  - now apply imagePageInv_change.
  - congruence.
  - unfold Shared.downloadBtn_click.
    destruct (js_not (Shared.currentSvgContent s));
      (apply (imagePageInv_frame s); try reflexivity; assumption).
  - pose proof (proj1 (Forall_lookup _ _) Htasks i _ E). discriminate.
  - now apply imagePageInv_start, imagePageInv_finish.
  - apply imagePageInv_resetView.
    pose proof (imagePageInv_finish i s H) as Hf.
    apply (imagePageInv_frame (Shared.finish_task i s)); try reflexivity;
      [now destruct Hf as (_ & Ht & _) | exact Hf].
  - now apply imagePageInv_img_onload, imagePageInv_finish.
  - pose proof (imagePageInv_finish i s H) as Hf.
    apply (imagePageInv_frame (Shared.finish_task i s)); try reflexivity;
      [now destruct Hf as (_ & Ht & _) | exact Hf].
  - pose proof (proj1 (Forall_lookup _ _) Htasks i _ E). discriminate.
  - rewrite Himg. apply imagePageInv_window_resetView.
    apply (imagePageInv_frame s); try reflexivity; assumption.
Qed.

Lemma imagePageInv_reachable root storage (s : Shared.State) :
  Shared.reachable parseFromString
    (Shared.loaded Shared.ImageToSvg root storage) s ->
  imagePageInv s.
Proof.
  intros [trace Hrun].
  eapply (run_invariant parseFromString imagePageInv);
    [|apply imagePageInv_loaded|exact Hrun].
  intros s0 e s1 H0 Hstep.
  exact (imagePageInv_effect s0 s1 H0 (step_effect _ _ _ _ Hstep)).
Qed.

End ImageView.

(** ** Properties of the pages beyond the specification *)

Section PageProperties.

Variable parseFromString : string -> Node.



(** X2: on the image page, in every state the page can reach, the page is
    in exactly one of its two modes, and a click on Download either saves
    nothing or saves, under the name [converted.svg], a wrapper built by
    [img.onload]: nothing else is ever offered for download. *)
Theorem download_saves_only_wrappers root storage (s s' : Shared.State) :
  Shared.reachable parseFromString
    (Shared.loaded Shared.ImageToSvg root storage) s ->
  Shared.step parseFromString s Shared.DownloadClick = Some s' ->
  Shared.isPlaceholder s = negb (Shared.isResult s)
  /\ (Shared.downloads s' = Shared.downloads s
      \/ exists W H url,
           Shared.downloads s'
           = Shared.downloads s
             ++ [("converted.svg", Shared.wrapperSvg W H url)]).
Proof.
  intros Hreach Hstep.
  destruct (imagePageInv_reachable parseFromString root storage s Hreach)
    as ([_ Himg] & _ & Hcache & Hview).
  split.
  { unfold Shared.isPlaceholder, Shared.isResult in *.
    destruct Hview as [(Hres & _)|(Hph & _)];
      destruct (classList_contains "hidden"
                  (Shared.outputPlaceholder (Shared.view s))),
               (classList_contains "hidden"
                  (Shared.outputContent (Shared.view s)));
      simpl in *; congruence. }
  cbn [Shared.step] in Hstep. rewrite Himg in Hstep.
  injection Hstep as <-. unfold Shared.downloadBtn_click.
  destruct Hcache as [Hempty|(W & H & url & Hw)].
  - rewrite Hempty. now left.
  - rewrite Hw.
    destruct (js_not (Shared.wrapperSvg W H url)) eqn:E.
    + now left.
    + right. now exists W, H, url.
Qed.

(** X3: on the image page, whenever a Result is shown, the cached SVG
    is a wrapper, Download is armed, and it saves that wrapper as
    [converted.svg] without raising a notification. *)
Theorem download_at_result_saves_the_wrapper
    root storage (s : Shared.State) :
  Shared.reachable parseFromString
    (Shared.loaded Shared.ImageToSvg root storage) s ->
  Shared.isResult s = true ->
  isWrapper (Shared.currentSvgContent s)
  /\ Shared.step parseFromString s Shared.DownloadClick
     = Some (Shared.add_download
               ("converted.svg", Shared.currentSvgContent s) s).
Proof.
  intros Hreach Hres.
  destruct (imagePageInv_reachable parseFromString root storage s Hreach)
    as ([_ Himg] & _ & _ & Hview).
  destruct Hview as [(_ & _ & (W & H & url & Hw))|(Hph & _)].
  - split; [now exists W, H, url|].
    cbn [Shared.step]. rewrite Himg. unfold Shared.downloadBtn_click.
    rewrite Hw.
    destruct (js_not (Shared.wrapperSvg W H url)) eqn:E; [|reflexivity].
    unfold js_not in E. apply String.eqb_eq in E.
    now apply wrapperSvg_nonempty in E.
  - unfold Shared.isPlaceholder, Shared.isResult in *.
    destruct (classList_contains "hidden"
                (Shared.outputPlaceholder (Shared.view s)));
      simpl in *; congruence.
Qed.

End PageProperties.


Lemma download_saves_only_wrappers_witness :
  let s := Shared.img_onload 100 50 photoUrl
             (Shared.fileInput_select (Some photoFile)
                (Shared.loaded Shared.ImageToSvg ∅ ∅)) in
  let s' := Shared.add_download
              ("converted.svg", Shared.wrapperSvg 100 50 photoUrl) s in
  Shared.isPlaceholder s = negb (Shared.isResult s)
  /\ (Shared.downloads s' = Shared.downloads s
      \/ exists W H url,
           Shared.downloads s'
           = Shared.downloads s
             ++ [("converted.svg", Shared.wrapperSvg W H url)]).
Proof.
  intros s s'.
  apply (download_saves_only_wrappers stubParser ∅ ∅ s s').
  - exists [Shared.FileInputChange (Some photoFile);
            Shared.ReaderLoad 0 photoUrl; Shared.ImageLoad 0 100 50].
    vm_compute. reflexivity.
  - vm_compute. reflexivity.
Defined.

Lemma download_at_result_saves_the_wrapper_witness :
  let s := Shared.img_onload 100 50 photoUrl
             (Shared.fileInput_select (Some photoFile)
                (Shared.loaded Shared.ImageToSvg ∅ ∅)) in
  isWrapper (Shared.currentSvgContent s)
  /\ Shared.step stubParser s Shared.DownloadClick
     = Some (Shared.add_download
               ("converted.svg", Shared.currentSvgContent s) s).
Proof.
  intros s. apply (download_at_result_saves_the_wrapper stubParser ∅ ∅ s).
  - exists [Shared.FileInputChange (Some photoFile);
            Shared.ReaderLoad 0 photoUrl; Shared.ImageLoad 0 100 50].
    vm_compute. reflexivity.
  - vm_compute. reflexivity.
Defined.

(** ** The message box *)

Section MessageBox.

Variable parseFromString : string -> Node.

Lemma clear_click_at_result (s : Shared.State) :
  Shared.clearBtn s = true ->
  Shared.isResult s = true ->
  Shared.step parseFromString s Shared.ClearClick
  = Some (Shared.showMsgBox "Confirm Clear"
            "Are you sure you want to clear the current SVG?" true
            Shared.AwaitClear s).
Proof.
  intros Hbtn Hres. cbn [Shared.step]. rewrite Hbtn.
  unfold Shared.clearBtn_click, Shared.isResult in *.
  apply andb_true_iff in Hres as [Hres _]. now rewrite Hres.
Qed.

(** X4: with a Result showing, Clear followed by OK resets the page once
    the overlay has gone: the Placeholder is back, the preview, the code
    area and the file input are empty, no dialog is left, and on the image
    page the cached SVG is emptied too (elsewhere it is left alone). *)
Theorem clear_confirmed_resets (s : Shared.State) :
  Shared.clearBtn s = true ->
  Shared.isResult s = true ->
  exists s',
    Shared.run parseFromString s
      [Shared.ClearClick; Shared.MsgBoxOk; Shared.MsgBoxTransitionEnd]
    = Some s'
    /\ Shared.isPlaceholder s' = true
    /\ Shared.svgPreview (Shared.view s') = ""
    /\ Shared.svgCode (Shared.view s')
       = (fun _ => "") <$> Shared.svgCode (Shared.view s)
    /\ Shared.fileInput (Shared.view s')
       = (fun _ => "") <$> Shared.fileInput (Shared.view s)
    /\ Shared.msgbox s' = None
    /\ Shared.currentSvgContent s'
       = (if Shared.imagePage s then "" else Shared.currentSvgContent s).
Proof.
  intros Hbtn Hres.
  cbn [Shared.run]. rewrite (clear_click_at_result s Hbtn Hres).
  cbn. unfold Shared.imagePage. cbn.
  destruct (Shared.downloadBtn (Shared.view s)) eqn:E.
  - eexists. split; [reflexivity|].
    split; [apply resetView_placeholder|]. repeat split.
  - eexists. split; [reflexivity|].
    split; [apply resetView_placeholder|]. repeat split.
Qed.

(** X5: the dialog's promise keeps the first answer. Cancel followed by
    OK before the overlay has gone resets nothing; OK followed by Cancel
    resets the page just as OK alone does. *)
Theorem first_answer_wins (s : Shared.State) :
  Shared.clearBtn s = true ->
  Shared.isResult s = true ->
  Shared.run parseFromString s
    [Shared.ClearClick; Shared.MsgBoxCancel; Shared.MsgBoxOk;
     Shared.MsgBoxTransitionEnd]
  = Some (Shared.set_msgbox None (S (Shared.nextOverlay s)) s)
  /\ Shared.run parseFromString s
       [Shared.ClearClick; Shared.MsgBoxOk; Shared.MsgBoxCancel;
        Shared.MsgBoxTransitionEnd]
     = Some ((if Shared.imagePage s then Shared.window_resetView
              else Shared.resetView)
               (Shared.set_msgbox None (S (Shared.nextOverlay s)) s)).
Proof.
  intros Hbtn Hres.
  cbn [Shared.run]. rewrite (clear_click_at_result s Hbtn Hres).
  split; [reflexivity|].
  cbn. unfold Shared.imagePage. cbn.
  now destruct (Shared.downloadBtn (Shared.view s)).
Qed.

(** X6: a copy that completes while the Clear confirmation is open
    replaces the confirmation by the success box, and the confirmation's
    promise is never resolved: OK on the box that is showing closes it and
    resets nothing, and no dialog is left to answer. *)
Theorem displaced_confirmation_is_lost (s : Shared.State) (text : string) :
  Shared.clearBtn s = true ->
  Shared.svgPage s = true ->
  Shared.isResult s = true ->
  Shared.svgCode (Shared.view s) = Some text ->
  text <> "" ->
  exists s',
    Shared.run parseFromString s
      [Shared.CopyClick; Shared.ClearClick;
       Shared.ClipboardDone (length (Shared.tasks s)) true;
       Shared.MsgBoxOk; Shared.MsgBoxTransitionEnd] = Some s'
    /\ Shared.view s' = Shared.view s
    /\ Shared.isResult s' = true
    /\ Shared.clipboard s' = Some text
    /\ Shared.msgbox s' = None
    /\ Shared.step parseFromString s' Shared.MsgBoxOk = None.
Proof.
  intros Hbtn Hsvg Hres Hcode Hne.
  assert (Hnot : js_not text = false).
  { unfold js_not. now apply String.eqb_neq. }
  set (s1 := Shared.set_tasks (fun l => l ++ [Shared.ClipboardWrite text]) s).
  assert (H1 : Shared.step parseFromString s Shared.CopyClick = Some s1).
  { cbn [Shared.step]. rewrite Hsvg. unfold Shared.copyBtn_click.
    now rewrite Hcode, Hnot. }
  assert (H2 : Shared.step parseFromString s1 Shared.ClearClick
               = Some (Shared.showMsgBox "Confirm Clear"
                         "Are you sure you want to clear the current SVG?"
                         true Shared.AwaitClear s1)).
  { now apply clear_click_at_result. }
  set (s2 := Shared.showMsgBox _ _ _ _ s1) in H2.
  assert (H3 : Shared.tasks s2 !! length (Shared.tasks s)
               = Some (Shared.ClipboardWrite text)).
  { apply (lookup_after_start (Shared.ClipboardWrite text) s). }
  cbn [Shared.run]. rewrite H1, H2.
  cbn [Shared.step]. rewrite H3.
  eexists. split; [reflexivity|].
  split; [reflexivity|].
  split; [exact Hres|]. repeat split.
Qed.

End MessageBox.

Lemma clear_confirmed_resets_witness :
  let s := Shared.img_onload 100 50 photoUrl
             (Shared.loaded Shared.ImageToSvg ∅ ∅) in
  exists s',
    Shared.run stubParser s
      [Shared.ClearClick; Shared.MsgBoxOk; Shared.MsgBoxTransitionEnd]
    = Some s'
    /\ Shared.isPlaceholder s' = true
    /\ Shared.currentSvgContent s' = "".
Proof.
  intros s.
  destruct (clear_confirmed_resets stubParser s)
    as (s' & Hrun & Hph & _ & _ & _ & _ & Hcur).
  - reflexivity.
  - vm_compute; reflexivity.
  - exists s'. repeat split; assumption.
Defined.

Lemma first_answer_wins_witness :
  let s := Shared.svgReader_onload stubParser iconSvg
             (Shared.loaded Shared.SvgToCode ∅ ∅) in
  Shared.run stubParser s
    [Shared.ClearClick; Shared.MsgBoxCancel; Shared.MsgBoxOk;
     Shared.MsgBoxTransitionEnd]
  = Some (Shared.set_msgbox None (S (Shared.nextOverlay s)) s).
Proof.
  intros s. destruct (first_answer_wins stubParser s) as [H _].
  - reflexivity.
  - vm_compute; reflexivity.
  - exact H.
Defined.

Lemma displaced_confirmation_is_lost_witness :
  let s := Shared.svgReader_onload stubParser iconSvg
             (Shared.loaded Shared.SvgToCode ∅ ∅) in
  exists s',
    Shared.run stubParser s
      [Shared.CopyClick; Shared.ClearClick; Shared.ClipboardDone 0 true;
       Shared.MsgBoxOk; Shared.MsgBoxTransitionEnd] = Some s'
    /\ Shared.isResult s' = true
    /\ Shared.clipboard s' = Some iconSvg.
Proof.
  intros s.
  destruct (displaced_confirmation_is_lost stubParser s iconSvg)
    as (s' & Hrun & _ & Hres & Hclip & _).
  - reflexivity.
  - reflexivity.
  - vm_compute; reflexivity.
  - vm_compute; reflexivity.
  - vm_compute; discriminate.
  - exists s'. repeat split; assumption.
Defined.

(** ** Reads in flight *)

Section ReadsInFlight.

Variable parseFromString : string -> Node.

Lemma step_change_svg (s : Shared.State) (f : File) :
  type f = "image/svg+xml" ->
  Shared.hasFileInput s = true ->
  onPage Shared.SvgToCode s ->
  Shared.step parseFromString s (Shared.FileInputChange (Some f))
  = Some (Shared.set_tasks (fun l => l ++ [Shared.SvgReader])
            (Shared.fileInput_select (Some f) s)).
Proof.
  intros Hty Hin [Hsvg Himg]. cbn [Shared.step].
  unfold Shared.hasFileInput in Hin.
  destruct (Shared.fileInput (Shared.view s)); [|discriminate].
  f_equal. set (s1 := Shared.fileInput_select (Some f) s).
  unfold Shared.fileInput_change.
  replace (Shared.svgPage s1) with true by (symmetry; exact Hsvg).
  unfold Shared.processSvgFile. rewrite Hty. simpl.
  replace (Shared.imagePage _) with false by (symmetry; exact Himg).
  reflexivity.
Qed.

Lemma step_reader_load (s : Shared.State) (i : nat) (text : string) :
  Shared.tasks s !! i = Some Shared.SvgReader ->
  Shared.step parseFromString s (Shared.ReaderLoad i text)
  = Some (Shared.svgReader_onload parseFromString text
            (Shared.finish_task i s)).
Proof. intros E. cbn [Shared.step]. now rewrite E. Qed.

Lemma svgReader_onload_valid (s : Shared.State) (text : string) :
  querySelector "parsererror" (parseFromString text) = None ->
  Shared.svgReader_onload parseFromString text s
  = Shared.set_view (fun v =>
      Shared.showOutput
        {| Shared.outputPlaceholder := Shared.outputPlaceholder v;
           Shared.outputContent := Shared.outputContent v;
           Shared.svgPreview := text;
           Shared.fileInput := Shared.fileInput v;
           Shared.svgCode :=
             (fun _ => normalizeNewlines text) <$> Shared.svgCode v;
           Shared.downloadBtn := Shared.downloadBtn v |}) s.
Proof.
  intros Hok. unfold Shared.svgReader_onload, Shared.svgReader_try.
  now rewrite Hok.
Qed.

(** X7: two SVG files chosen one after the other are both read, and the
    result kept is that of the read that completes last. When the first
    file's read completes after the second's, the code area ends up with
    the first file's text (its newlines normalised) while the file input
    names the second file. *)
Theorem last_completed_read_wins
    (s : Shared.State) (f1 f2 : File) (t1 t2 : string) :
  type f1 = "image/svg+xml" ->
  type f2 = "image/svg+xml" ->
  Shared.hasFileInput s = true ->
  onPage Shared.SvgToCode s ->
  querySelector "parsererror" (parseFromString t1) = None ->
  querySelector "parsererror" (parseFromString t2) = None ->
  exists s',
    Shared.run parseFromString s
      [Shared.FileInputChange (Some f1); Shared.FileInputChange (Some f2);
       Shared.ReaderLoad (S (length (Shared.tasks s))) t2;
       Shared.ReaderLoad (length (Shared.tasks s)) t1] = Some s'
    /\ Shared.isResult s' = true
    /\ Shared.svgCode (Shared.view s') = Some (normalizeNewlines t1)
    /\ Shared.fileInput (Shared.view s') = Some ("C:\fakepath\" +:+ name f2)
    /\ Shared.tasks s' = Shared.tasks s.
Proof.
  intros Hty1 Hty2 Hin Hpage Hok1 Hok2.
  pose proof Hpage as [Hsvg Himg].
  destruct (svgPage_code s Hsvg) as [old Hold].
  unfold Shared.hasFileInput in Hin.
  destruct (Shared.fileInput (Shared.view s)) as [path|] eqn:Hpath;
    [|discriminate].
  set (s1 := Shared.set_tasks (fun l => l ++ [Shared.SvgReader])
               (Shared.fileInput_select (Some f1) s)).
  assert (H1 : Shared.step parseFromString s
                 (Shared.FileInputChange (Some f1)) = Some s1).
  { apply step_change_svg; [assumption| |exact Hpage].
    unfold Shared.hasFileInput. now rewrite Hpath. }
  set (s2 := Shared.set_tasks (fun l => l ++ [Shared.SvgReader])
               (Shared.fileInput_select (Some f2) s1)).
  assert (H2 : Shared.step parseFromString s1
                 (Shared.FileInputChange (Some f2)) = Some s2).
  { apply step_change_svg; [assumption| |exact Hpage].
    unfold Shared.hasFileInput. cbn. now rewrite Hpath. }
  assert (Hlen : S (length (Shared.tasks s))
                 = length (Shared.tasks (Shared.fileInput_select (Some f2) s1))).
  { cbn. rewrite length_app. cbn. lia. }
  assert (H3 : Shared.step parseFromString s2
                 (Shared.ReaderLoad (S (length (Shared.tasks s))) t2)
               = Some (Shared.svgReader_onload parseFromString t2
                         (Shared.fileInput_select (Some f2) s1))).
  { rewrite Hlen. rewrite step_reader_load by apply lookup_after_start.
    unfold s2. now rewrite finish_after_start. }
  set (s3 := Shared.svgReader_onload parseFromString t2 _) in H3.
  assert (H4 : Shared.tasks s3 !! length (Shared.tasks s)
               = Some Shared.SvgReader).
  { unfold s3. rewrite svgReader_onload_valid by assumption.
    cbn. apply list_lookup_middle. reflexivity. }
  cbn [Shared.run]. rewrite H1, H2, H3.
  rewrite (step_reader_load s3 _ t1 H4).
  eexists. split; [reflexivity|].
  rewrite svgReader_onload_valid by assumption.
  unfold s3. rewrite svgReader_onload_valid by assumption.
  unfold Shared.isResult. cbn. rewrite Hold, Hpath. cbn.
  autorewrite with tokens. rewrite delete_middle, app_nil_r.
  repeat split.
Qed.

End ReadsInFlight.

Lemma last_completed_read_wins_witness :
  exists s',
    Shared.run stubParser (Shared.loaded Shared.SvgToCode ∅ ∅)
      [Shared.FileInputChange (Some iconFile);
       Shared.FileInputChange
         (Some {| name := "logo.svg"; type := "image/svg+xml" |});
       Shared.ReaderLoad 1 "<svg>logo</svg>";
       Shared.ReaderLoad 0 iconSvg] = Some s'
    /\ Shared.svgCode (Shared.view s') = Some (normalizeNewlines iconSvg)
    /\ Shared.fileInput (Shared.view s') = Some "C:\fakepath\logo.svg".
Proof.
  destruct (last_completed_read_wins stubParser
              (Shared.loaded Shared.SvgToCode ∅ ∅) iconFile
              {| name := "logo.svg"; type := "image/svg+xml" |}
              iconSvg "<svg>logo</svg>")
    as (s' & Hrun & _ & Hcode & Hinput & _).
  - reflexivity.
  - reflexivity.
  - reflexivity.
  - split; reflexivity.
  - vm_compute; reflexivity.
  - vm_compute; reflexivity.
  - exists s'. repeat split; assumption.
Defined.

(** ** Copy, drag and drop, reset and notifications *)

Section SharedHandlers.

Variable parseFromString : string -> Node.


(** X9: from file to clipboard. An accepted, non-empty SVG text that is
    read and then copied reaches the clipboard with its newlines
    normalised (the handler writes the code area's value, not the text as
    read), and the "Success!" box, which has no Cancel button, opens; when
    the write fails the clipboard is left as it was and "Failed to copy
    to clipboard." is shown. Either way the Result stays. *)
Theorem copied_text_is_the_normalised_file
    (s : Shared.State) (f : File) (text : string) :
  type f = "image/svg+xml" ->
  Shared.hasFileInput s = true ->
  onPage Shared.SvgToCode s ->
  querySelector "parsererror" (parseFromString text) = None ->
  text <> "" ->
  (exists s',
     Shared.run parseFromString s
       [Shared.FileInputChange (Some f);
        Shared.ReaderLoad (length (Shared.tasks s)) text;
        Shared.CopyClick;
        Shared.ClipboardDone (length (Shared.tasks s)) true] = Some s'
     /\ Shared.clipboard s' = Some (normalizeNewlines text)
     /\ (exists m, Shared.msgbox s' = Some m
                   /\ Shared.title m = "Success!"
                   /\ Shared.isConfirm m = false)
     /\ Shared.isResult s' = true
     /\ Shared.tasks s' = Shared.tasks s)
  /\ (exists s',
        Shared.run parseFromString s
          [Shared.FileInputChange (Some f);
           Shared.ReaderLoad (length (Shared.tasks s)) text;
           Shared.CopyClick;
           Shared.ClipboardDone (length (Shared.tasks s)) false] = Some s'
        /\ Shared.clipboard s' = Shared.clipboard s
        /\ Shared.textContent (Shared.notification s')
           = "Failed to copy to clipboard."
        /\ Shared.isResult s' = true
        /\ Shared.tasks s' = Shared.tasks s).
Proof.
  intros Hty Hin Hpage Hok Hne.
  pose proof Hpage as [Hsvg Himg].
  destruct (svgPage_code s Hsvg) as [old Hold].
  pose proof (run_svg_read parseFromString s f text Hty Hin Hpage) as Hread.
  rewrite (svgReader_onload_valid parseFromString _ text Hok) in Hread.
  set (s2 := Shared.set_view _ (Shared.fileInput_select (Some f) s)) in Hread.
  assert (Hcode2 : Shared.svgCode (Shared.view s2)
                   = Some (normalizeNewlines text)).
  { unfold s2. cbn. now rewrite Hold. }
  assert (Hsvg2 : Shared.svgPage s2 = true).
  { unfold Shared.svgPage. rewrite Hcode2.
    unfold Shared.svgPage in Hsvg. now rewrite Hold in Hsvg. }
  assert (Hres2 : Shared.isResult s2 = true).
  { unfold Shared.isResult, s2. cbn. now autorewrite with tokens. }
  assert (Hnot : js_not (normalizeNewlines text) = false).
  { unfold js_not. apply String.eqb_neq. intros Hn.
    now apply normalize_empty_inv in Hn. }
  set (s3 := Shared.set_tasks
               (fun l => l ++ [Shared.ClipboardWrite (normalizeNewlines text)])
               s2).
  assert (H3 : Shared.step parseFromString s2 Shared.CopyClick = Some s3).
  { cbn [Shared.step]. rewrite Hsvg2. unfold Shared.copyBtn_click.
    now rewrite Hcode2, Hnot. }
  assert (H4 : Shared.tasks s3 !! length (Shared.tasks s)
               = Some (Shared.ClipboardWrite (normalizeNewlines text)))
    by apply (lookup_after_start _ s2).
  assert (Hfin : Shared.finish_task (length (Shared.tasks s)) s3 = s2)
    by apply (finish_after_start _ s2).
  split.
  - change [Shared.FileInputChange (Some f);
            Shared.ReaderLoad (length (Shared.tasks s)) text;
            Shared.CopyClick;
            Shared.ClipboardDone (length (Shared.tasks s)) true]
      with ([Shared.FileInputChange (Some f);
             Shared.ReaderLoad (length (Shared.tasks s)) text]
            ++ [Shared.CopyClick;
                Shared.ClipboardDone (length (Shared.tasks s)) true]).
    rewrite run_app, Hread. unfold mbind, option_bind.
    cbn [Shared.run]. rewrite H3. cbn [Shared.step]. rewrite H4, Hfin.
    eexists. split; [reflexivity|]. split; [reflexivity|].
    split; [eexists; split; [reflexivity|split; reflexivity]|].
    split; [exact Hres2|reflexivity].
  - change [Shared.FileInputChange (Some f);
            Shared.ReaderLoad (length (Shared.tasks s)) text;
            Shared.CopyClick;
            Shared.ClipboardDone (length (Shared.tasks s)) false]
      with ([Shared.FileInputChange (Some f);
             Shared.ReaderLoad (length (Shared.tasks s)) text]
            ++ [Shared.CopyClick;
                Shared.ClipboardDone (length (Shared.tasks s)) false]).
    rewrite run_app, Hread. unfold mbind, option_bind.
    cbn [Shared.run]. rewrite H3. cbn [Shared.step]. rewrite H4, Hfin.
    eexists. split; [reflexivity|]. split; [reflexivity|].
    split; [reflexivity|]. split; [exact Hres2|reflexivity].
Qed.

(** X10: in the shared script drag and drop never processes a file: after
    any sequence of drag-over, drag-leave and drop events the view, the
    cached SVG, the pending reads, the notification and the dialog are
    what they were. *)
Theorem drag_and_drop_changes_nothing
    (trace : list Shared.Event) (s s' : Shared.State) :
  forallb isDragEvent trace = true ->
  Shared.run parseFromString s trace = Some s' ->
  Shared.view s' = Shared.view s
  /\ Shared.currentSvgContent s' = Shared.currentSvgContent s
  /\ Shared.tasks s' = Shared.tasks s
  /\ Shared.notification s' = Shared.notification s
  /\ Shared.msgbox s' = Shared.msgbox s.
Proof.
  revert s. induction trace as [|e trace IH]; intros s Hdrag Hrun.
  - injection Hrun as <-. repeat split.
  - cbn [forallb] in Hdrag. apply andb_true_iff in Hdrag as [He Hrest].
    cbn [Shared.run] in Hrun.
    destruct (Shared.step parseFromString s e) as [s1|] eqn:E;
      [|discriminate].
    destruct (IH s1 Hrest Hrun) as (Hv & Hc & Ht & Hn & Hm).
    rewrite Hv, Hc, Ht, Hn, Hm.
    destruct e; try discriminate; cbn [Shared.step] in E;
      (destruct (Shared.dropZone s); [|discriminate]);
      injection E as <-; repeat split.
Qed.

(** X11: a reset wipes what processing did. On the image page the page's
    reset after an image was wrapped gives the very state it gives
    without the image; on the SVG page the reset after a read completed,
    whatever its text, gives the same view as the reset alone. *)
Theorem reset_erases_processing
    (s : Shared.State) (W H : N) (url text : string) :
  Shared.window_resetView (Shared.img_onload W H url s)
  = Shared.window_resetView s
  /\ Shared.view
       (Shared.resetView (Shared.svgReader_onload parseFromString text s))
     = Shared.view (Shared.resetView s).
Proof.
  split.
  - unfold Shared.window_resetView, Shared.resetView, Shared.img_onload,
      Shared.set_currentSvgContent, Shared.set_view. cbn.
    now autorewrite with tokens.
  - unfold Shared.svgReader_onload, Shared.svgReader_try.
    destruct (querySelector "parsererror" (parseFromString text)).
    + now rewrite resetView_idem.
    + unfold Shared.resetView, Shared.set_view. cbn.
      autorewrite with tokens.
      now destruct (Shared.svgCode (Shared.view s)).
Qed.

(** X12: the latest notification wins. A notification shown while another
    is still up replaces it entirely, the older timer being cancelled: the
    state is the one the second notification alone gives, a single timeout
    can then fire, and when it has fired the toast is hidden with its text
    still in place. *)
Theorem latest_notification_wins
    (s : Shared.State) (m1 k1 m2 k2 : string) :
  let s2 := Shared.showNotification m2 k2 (Shared.showNotification m1 k1 s) in
  s2 = Shared.showNotification m2 k2 s
  /\ Shared.run parseFromString s2
       [Shared.NotificationTimeout; Shared.NotificationTimeout] = None
  /\ exists s3,
       Shared.step parseFromString s2 Shared.NotificationTimeout = Some s3
       /\ classList_contains "show" (Shared.className (Shared.notification s3))
          = false
       /\ Shared.textContent (Shared.notification s3) = m2.
Proof.
  cbn zeta. split; [reflexivity|]. split; [reflexivity|].
  eexists. split; [reflexivity|]. split; [|reflexivity].
  cbn. apply contains_remove.
Qed.

End SharedHandlers.


Lemma copied_text_is_the_normalised_file_witness :
  exists s',
    Shared.run stubParser (Shared.loaded Shared.SvgToCode ∅ ∅)
      [Shared.FileInputChange (Some iconFile); Shared.ReaderLoad 0 crlfSvg;
       Shared.CopyClick; Shared.ClipboardDone 0 true] = Some s'
    /\ Shared.clipboard s' = Some (normalizeNewlines crlfSvg).
Proof.
  destruct (copied_text_is_the_normalised_file stubParser
              (Shared.loaded Shared.SvgToCode ∅ ∅) iconFile crlfSvg)
    as [(s' & Hrun & Hclip & _) _].
  - reflexivity.
  - reflexivity.
  - split; reflexivity.
  - vm_compute; reflexivity.
  - vm_compute; discriminate.
  - exists s'. split; assumption.
Defined.

Lemma drag_and_drop_changes_nothing_witness :
  let s := Shared.loaded Shared.SvgToCode ∅ ∅ in
  let s' := Shared.set_dropZone (classList_remove "dragover")
              (Shared.set_dropZone (classList_add "dragover") s) in
  Shared.view s' = Shared.view s /\ Shared.tasks s' = Shared.tasks s.
Proof.
  intros s s'.
  destruct (drag_and_drop_changes_nothing stubParser
              [Shared.DragOver; Shared.Drop (Some iconFile)] s s')
    as (Hv & _ & Ht & _).
  - reflexivity.
  - reflexivity.
  - split; assumption.
Defined.

(** ** The theme, once more *)

(** X13: three clicks on the theme toggle do what one click does, from
    every state and in both scripts: after the first click the theme is
    settled and toggling is an involution. *)
Theorem toggle_thrice_is_toggle (t : Shared.Theme) (u : Standalone.Theme) :
  Shared.themeToggle_click
    (Shared.themeToggle_click (Shared.themeToggle_click t))
  = Shared.themeToggle_click t
  /\ Standalone.themeToggle_click
       (Standalone.themeToggle_click (Standalone.themeToggle_click u))
     = Standalone.themeToggle_click u.
Proof.
  split.
  - destruct t as [root dark light store].
    destruct (classList_contains "dark" root) eqn:E;
      destruct dark as [dark|], light as [light|].
    all: try (rewrite (click_when_dark _ _ _ _ E);
              unfold Shared.updateThemeIcons; cbn [Shared.themeToggleDarkIcon Shared.themeToggleLightIcon
                   Shared.documentElement Shared.localStorage];
              rewrite click_when_light by apply contains_remove;
              unfold Shared.updateThemeIcons; cbn [Shared.themeToggleDarkIcon Shared.themeToggleLightIcon
                   Shared.documentElement Shared.localStorage];
              rewrite click_when_dark by apply contains_add;
              unfold Shared.updateThemeIcons; cbn [Shared.themeToggleDarkIcon Shared.themeToggleLightIcon
                   Shared.documentElement Shared.localStorage];
              autorewrite with tokens; rewrite !insert_insert_eq;
              reflexivity).
    all: rewrite (click_when_light _ _ _ _ E);
         unfold Shared.updateThemeIcons; cbn [Shared.themeToggleDarkIcon Shared.themeToggleLightIcon
                   Shared.documentElement Shared.localStorage];
         rewrite click_when_dark by apply contains_add;
         unfold Shared.updateThemeIcons; cbn [Shared.themeToggleDarkIcon Shared.themeToggleLightIcon
                   Shared.documentElement Shared.localStorage];
         rewrite click_when_light by apply contains_remove;
         unfold Shared.updateThemeIcons; cbn [Shared.themeToggleDarkIcon Shared.themeToggleLightIcon
                   Shared.documentElement Shared.localStorage];
         autorewrite with tokens; rewrite !insert_insert_eq;
         reflexivity.
  - destruct u as [root dark light store].
    destruct (classList_contains "dark" root) eqn:E.
    + rewrite (standalone_click_when_dark _ _ _ _ E).
      rewrite standalone_click_when_light by apply contains_remove.
      rewrite standalone_click_when_dark by apply contains_add.
      autorewrite with tokens. now rewrite !insert_insert_eq.
    + rewrite (standalone_click_when_light _ _ _ _ E).
      rewrite standalone_click_when_dark by apply contains_add.
      rewrite standalone_click_when_light by apply contains_remove.
      autorewrite with tokens. now rewrite !insert_insert_eq.
Qed.

Lemma contains_toggle_force (b : bool) (l : gset string) :
  classList_contains "hidden" (classList_toggle_force "hidden" b l) = b.
Proof.
  destruct b; unfold classList_toggle_force;
    [apply contains_add | apply contains_remove].
Qed.

(** X14: after the load-time update and after every click exactly one of
    the two theme icons is hidden, and the two scripts disagree on which:
    in dark mode the shared script shows the dark icon and hides the
    light one, the self-contained script shows the light icon and hides
    the dark one. *)
Theorem one_theme_icon_is_shown
    (t : Shared.Theme) (d l : gset string) (u : Standalone.Theme) :
  Shared.themeToggleDarkIcon t = Some d ->
  Shared.themeToggleLightIcon t = Some l ->
  (forall t', t' = Shared.themeToggle_click t \/ t' = Shared.initThemeIcons t ->
     exists d' l',
       Shared.themeToggleDarkIcon t' = Some d'
       /\ Shared.themeToggleLightIcon t' = Some l'
       /\ classList_contains "hidden" d'
          = negb (classList_contains "dark" (Shared.documentElement t'))
       /\ classList_contains "hidden" l'
          = classList_contains "dark" (Shared.documentElement t'))
  /\ (forall u',
        u' = Standalone.themeToggle_click u
        \/ u' = Standalone.updateThemeIcons u ->
        classList_contains "hidden" (Standalone.themeToggleDarkIcon u')
        = classList_contains "dark" (Standalone.documentElement u')
        /\ classList_contains "hidden" (Standalone.themeToggleLightIcon u')
           = negb (classList_contains "dark" (Standalone.documentElement u'))).
Proof.
  intros Hd Hl. split.
  - destruct t as [root dark light store]. cbn in Hd, Hl. subst dark light.
    intros t' [-> | ->].
    + destruct (classList_contains "dark" root) eqn:E.
      * rewrite (click_when_dark _ _ _ _ E). unfold Shared.updateThemeIcons.
        cbn [Shared.themeToggleDarkIcon Shared.themeToggleLightIcon
             Shared.documentElement Shared.localStorage].
        eexists _, _. split; [reflexivity|]. split; [reflexivity|].
        now rewrite !contains_toggle_force, contains_remove.
      * rewrite (click_when_light _ _ _ _ E). unfold Shared.updateThemeIcons.
        cbn [Shared.themeToggleDarkIcon Shared.themeToggleLightIcon
             Shared.documentElement Shared.localStorage].
        eexists _, _. split; [reflexivity|]. split; [reflexivity|].
        now rewrite !contains_toggle_force, contains_add.
    + unfold Shared.initThemeIcons, Shared.updateThemeIcons.
      cbn [Shared.themeToggleDarkIcon Shared.themeToggleLightIcon
           Shared.documentElement Shared.localStorage].
      eexists _, _. split; [reflexivity|]. split; [reflexivity|].
      now rewrite !contains_toggle_force.
  - destruct u as [root dark light store].
    intros u' [-> | ->];
      destruct (classList_contains "dark" root) eqn:E.
    + rewrite (standalone_click_when_dark _ _ _ _ E).
      cbn [Standalone.themeToggleDarkIcon Standalone.themeToggleLightIcon
           Standalone.documentElement].
      now autorewrite with tokens.
    + rewrite (standalone_click_when_light _ _ _ _ E).
      cbn [Standalone.themeToggleDarkIcon Standalone.themeToggleLightIcon
           Standalone.documentElement].
      now autorewrite with tokens.
    + rewrite (standalone_icons_when_dark _ _ _ _ E).
      cbn [Standalone.themeToggleDarkIcon Standalone.themeToggleLightIcon
           Standalone.documentElement].
      rewrite E. now autorewrite with tokens.
    + rewrite (standalone_icons_when_light _ _ _ _ E).
      cbn [Standalone.themeToggleDarkIcon Standalone.themeToggleLightIcon
           Standalone.documentElement].
      rewrite E. now autorewrite with tokens.
Qed.

Lemma one_theme_icon_is_shown_witness :
  let t := Shared.theme (Shared.loaded Shared.SvgToCode ∅ ∅) in
  let u := Standalone.theme (Standalone.loaded ∅ ∅) in
  (exists d' l',
     Shared.themeToggleDarkIcon (Shared.themeToggle_click t) = Some d'
     /\ Shared.themeToggleLightIcon (Shared.themeToggle_click t) = Some l'
     /\ classList_contains "hidden" d' = false
     /\ classList_contains "hidden" l' = true)
  /\ classList_contains "hidden"
       (Standalone.themeToggleDarkIcon (Standalone.themeToggle_click u))
     = true.
Proof.
  intros t u.
  destruct (one_theme_icon_is_shown t {[ "hidden" ]} ∅ u) as [Hs Hu].
  - vm_compute; reflexivity.
  - vm_compute; reflexivity.
  - split.
    + destruct (Hs (Shared.themeToggle_click t)) as (d' & l' & H1 & H2 & H3 & H4);
        [now left|].
      exists d', l'. split; [exact H1|]. split; [exact H2|].
      split; [rewrite H3|rewrite H4]; vm_compute; reflexivity.
    + destruct (Hu (Standalone.themeToggle_click u)) as [H1 _]; [now left|].
      rewrite H1. vm_compute; reflexivity.
Defined.

(** ** The self-contained page *)

Lemma standalone_run_invariant (Inv : Standalone.State -> Prop) :
  (forall u e u', Inv u -> Standalone.step u e = Some u' -> Inv u') ->
  forall trace u u',
    Inv u -> Standalone.run u trace = Some u' -> Inv u'.
Proof.
  intros Hstep trace.
  induction trace as [|e trace IH]; intros u u' H0 Hrun; simpl in Hrun.
  - now injection Hrun as <-.
  - destruct (Standalone.step u e) as [u1|] eqn:E; [|discriminate].
    exact (IH u1 u' (Hstep u e u1 H0 E) Hrun).
Qed.

Lemma standaloneInv_loaded root storage :
  standaloneInv (Standalone.loaded root storage).
Proof. split; [left; repeat split|now left]. Qed.

Lemma standaloneInv_frame (u u' : Standalone.State) :
  Standalone.uploadView u' = Standalone.uploadView u ->
  Standalone.previewContainer u' = Standalone.previewContainer u ->
  Standalone.svgPreview u' = Standalone.svgPreview u ->
  Standalone.svgCode u' = Standalone.svgCode u ->
  Standalone.alerts u' = Standalone.alerts u ->
  Standalone.nextAlert u' = Standalone.nextAlert u ->
  standaloneInv u -> standaloneInv u'.
Proof.
  unfold standaloneInv, Standalone.isPlaceholder, Standalone.isResult.
  intros -> -> -> -> -> ->. exact (fun H => H).
Qed.

Lemma standaloneInv_customAlert (u : Standalone.State) :
  standaloneInv u -> standaloneInv (Standalone.customAlert u).
Proof.
  intros [Hview Halerts]. split; [exact Hview|].
  right. exists (Standalone.nextAlert u). split; [|reflexivity].
  cbn. destruct Halerts as [->|(id & -> & _)]; reflexivity.
Qed.

Lemma standaloneInv_handleFile (file : option File) (u : Standalone.State) :
  standaloneInv u -> standaloneInv (Standalone.handleFile file u).
Proof.
  intros H. unfold Standalone.handleFile.
  destruct (match file with
            | Some f => String.eqb (type f) "image/svg+xml"
            | None => false
            end).
  - now apply (standaloneInv_frame u).
  - now apply standaloneInv_customAlert.
Qed.

Lemma standaloneInv_step
    (u : Standalone.State) (e : Standalone.Event) (u' : Standalone.State) :
  standaloneInv u -> Standalone.step u e = Some u' -> standaloneInv u'.
Proof.
  intros H Hstep. destruct e; cbn [Standalone.step] in Hstep.
  - injection Hstep as <-. now apply (standaloneInv_frame u).
  - injection Hstep as <-. apply standaloneInv_handleFile.
    now apply (standaloneInv_frame u).
  - injection Hstep as <-. now apply (standaloneInv_frame u).
  - injection Hstep as <-. now apply (standaloneInv_frame u).
  - injection Hstep as <-. destruct files as [|f rest].
    + now apply (standaloneInv_frame u).
    + apply standaloneInv_handleFile. now apply (standaloneInv_frame u).
  - destruct (Standalone.readers u) as [|n]; [discriminate|].
    injection Hstep as <-. destruct H as [_ Halerts].
    split; [|exact Halerts]. right.
    unfold Standalone.isResult. cbn. autorewrite with tokens.
    split; [reflexivity|]. exists result. split; reflexivity.
  - injection Hstep as <-. destruct H as [_ Halerts].
    split; [|exact Halerts]. left.
    unfold Standalone.isPlaceholder. cbn. autorewrite with tokens.
    repeat split.
  - injection Hstep as <-. destruct H as [Hview Halerts].
    split; [exact Hview|]. cbn.
    destruct Halerts as [->|(a & -> & Hnext)]; [now left|].
    cbn. destruct (decide (a ≠ id)); [|now left].
    right. now exists a.
Qed.

(** X15: in every state the self-contained page can reach, the page is
    either at the Placeholder with the code area and the preview empty,
    or at the Result with exactly one preview image; the source of that
    image is the data URI of the text that was read, and the code area
    holds that same text with its newlines normalised. *)
Theorem standalone_preview_and_code_agree
    root storage (trace : list Standalone.Event) (u : Standalone.State) :
  Standalone.run (Standalone.loaded root storage) trace = Some u ->
  (Standalone.isPlaceholder u = true
   /\ Standalone.isResult u = false
   /\ Standalone.svgCode u = "" /\ Standalone.svgPreview u = [])
  \/ (Standalone.isResult u = true
      /\ Standalone.isPlaceholder u = false
      /\ exists text,
           Standalone.svgPreview u
           = ["data:image/svg+xml," +:+ encodeURIComponent text]
           /\ Standalone.svgCode u = normalizeNewlines text).
Proof.
  intros Hrun.
  destruct (standalone_run_invariant standaloneInv standaloneInv_step
              trace _ u (standaloneInv_loaded root storage) Hrun)
    as [Hview _].
  unfold Standalone.isPlaceholder, Standalone.isResult in *.
  destruct Hview as [(Hp & Hc & Hv)|(Hr & Hv)]; [left|right];
    destruct (classList_contains "hidden" (Standalone.uploadView u)),
             (classList_contains "hidden" (Standalone.previewContainer u));
    try discriminate; repeat split; assumption.
Qed.

(** X16: in every state the self-contained page can reach, at most one
    alert box is in the body. A rejected file replaces the box that is
    showing by a new one, and the timer of a replaced box, when it fires
    later, does not remove the box that replaced it. *)
Theorem standalone_single_alert
    root storage (trace : list Standalone.Event) (u : Standalone.State) :
  Standalone.run (Standalone.loaded root storage) trace = Some u ->
  length (Standalone.alerts u) <= 1
  /\ Standalone.alerts (Standalone.customAlert u) = [Standalone.nextAlert u]
  /\ forall id, id < Standalone.nextAlert u ->
       Standalone.alerts
         (Standalone.alert_timeout id (Standalone.customAlert u))
       = [Standalone.nextAlert u].
Proof.
  intros Hrun.
  destruct (standalone_run_invariant standaloneInv standaloneInv_step
              trace _ u (standaloneInv_loaded root storage) Hrun)
    as [_ Halerts].
  destruct Halerts as [Hnil|(a & Ha & Hnext)].
  - rewrite Hnil. cbn. rewrite Hnil. split; [lia|]. split; [reflexivity|].
    intros id Hid. cbn.
    destruct (decide (Standalone.nextAlert u ≠ id)); [reflexivity|lia].
  - rewrite Ha. cbn. rewrite Ha. split; [lia|]. split; [reflexivity|].
    intros id Hid. cbn.
    destruct (decide (Standalone.nextAlert u ≠ id)); [reflexivity|lia].
Qed.

Lemma standalone_preview_and_code_agree_witness :
  let u := Standalone.reader_onload crlfSvg
             (Standalone.set_fileInput "C:\fakepath\icon.svg"
                (Standalone.loaded ∅ ∅)) in
  Standalone.isResult u = true
  /\ exists text,
       Standalone.svgPreview u
       = ["data:image/svg+xml," +:+ encodeURIComponent text]
       /\ Standalone.svgCode u = normalizeNewlines text.
Proof.
  intros u.
  destruct (standalone_preview_and_code_agree ∅ ∅
              [Standalone.FileInputChange (Some iconFile);
               Standalone.ReaderLoad crlfSvg] u)
    as [(Hp & Hr & _)|(Hr & _ & Hv)].
  - vm_compute. reflexivity.
  - exfalso. revert Hr. vm_compute. discriminate.
  - split; assumption.
Defined.

Lemma standalone_single_alert_witness :
  let u := Standalone.customAlert
             (Standalone.set_fileInput "C:\fakepath\notes.txt"
                (Standalone.loaded ∅ ∅)) in
  length (Standalone.alerts u) <= 1
  /\ Standalone.alerts
       (Standalone.alert_timeout 0 (Standalone.customAlert u)) = [1].
Proof.
  intros u.
  destruct (standalone_single_alert ∅ ∅
              [Standalone.FileInputChange (Some notesFile)] u)
    as (Hlen & _ & Hstale).
  - vm_compute. reflexivity.
  - split; [exact Hlen|]. apply (Hstale 0). vm_compute. lia.
Defined.

(** X17: what an empty selection and a drop do in the self-contained
    script. A change event without a file raises the alert box (the shared
    script stays silent there) and starts no read; a drop without files
    raises nothing; of several dropped files only the first is looked at;
    and a dropped SVG file is read exactly as a chosen one is. *)
Theorem standalone_empty_selection_and_drop
    (u : Standalone.State) (s : Shared.State) (f : File) (rest : list File) :
  (exists u',
     Standalone.step u (Standalone.FileInputChange None) = Some u'
     /\ In (Standalone.nextAlert u) (Standalone.alerts u')
     /\ Standalone.readers u' = Standalone.readers u)
  /\ Shared.fileInput_change None s = s
  /\ Standalone.step u (Standalone.Drop [])
     = Some (Standalone.set_borderColor "" u)
  /\ Standalone.step u (Standalone.Drop (f :: rest))
     = Standalone.step u (Standalone.Drop [f])
  /\ (Standalone.readers <$> Standalone.step u (Standalone.Drop [f]))
     = (Standalone.readers
          <$> Standalone.step u (Standalone.FileInputChange (Some f))).
Proof.
  split.
  { eexists. split; [reflexivity|]. cbn. split; [|reflexivity].
    apply in_or_app. right. now left. }
  split.
  { unfold Shared.fileInput_change. cbn.
    now destruct (Shared.svgPage s), (Shared.imagePage s). }
  split; [reflexivity|]. split; [reflexivity|].
  cbn. unfold Standalone.handleFile.
  now destruct (String.eqb (type f) "image/svg+xml").
Qed.

(** ** The preview's data URI *)

Lemma hexDigit_safe (n : nat) : uriSafe (hexDigit n) = true.
Proof.
  unfold hexDigit.
  do 17 (destruct n as [|n]; [vm_compute; reflexivity|]).
  vm_compute. reflexivity.
Qed.

Lemma encodeURIComponent_safe (text : string) :
  Forall (fun c => uriSafe c = true)
    (list_ascii_of_string (encodeURIComponent text)).
Proof.
  induction text as [|c text IH]; [constructor|].
  cbn [encodeURIComponent].
  destruct (uriUnreserved c) eqn:E; cbn [list_ascii_of_string].
  - constructor; [|exact IH]. unfold uriSafe. now rewrite E.
  - constructor; [vm_compute; reflexivity|].
    constructor; [apply hexDigit_safe|].
    constructor; [apply hexDigit_safe|]. exact IH.
Qed.

Lemma encodeURIComponent_unreserved (text : string) :
  forallb uriUnreserved (list_ascii_of_string text) = true ->
  encodeURIComponent text = text.
Proof.
  induction text as [|c text IH]; [reflexivity|].
  cbn [list_ascii_of_string forallb encodeURIComponent].
  intros H. apply andb_true_iff in H as [Hc Hrest].
  rewrite Hc. now rewrite IH.
Qed.

Lemma uriSafe_excludes (c : ascii) :
  uriSafe c = true ->
  ~ In c (list_ascii_of_string ("<>#& " +:+ dquote)).
Proof.
  intros Hsafe Hin. cbn in Hin.
  repeat (destruct Hin as [<-|Hin]; [vm_compute in Hsafe; discriminate|]).
  exact Hin.
Qed.

(** X18: whatever text is read, the source of the preview image of the
    self-contained script is [data:image/svg+xml,] followed by the
    escaped text, in which no angle bracket, double quote, [#], [&] or
    space of the text is left: only unreserved characters, [%] and
    upper-case hexadecimal digits occur. A text made of unreserved
    characters is passed as it is. *)
Theorem preview_uri_is_escaped (text : string) (u : Standalone.State) :
  exists payload,
    Standalone.svgPreview (Standalone.reader_onload text u)
    = ["data:image/svg+xml," +:+ payload]
    /\ Forall (fun c => uriSafe c = true
                        /\ ~ In c (list_ascii_of_string
                                     ("<>#& " +:+ dquote)))
         (list_ascii_of_string payload)
    /\ (forallb uriUnreserved (list_ascii_of_string text) = true ->
        payload = text).
Proof.
  exists (encodeURIComponent text). split; [reflexivity|]. split.
  - eapply Forall_impl; [apply encodeURIComponent_safe|].
    intros c Hc. split; [exact Hc|now apply uriSafe_excludes].
  - apply encodeURIComponent_unreserved.
Qed.

(** ** The copy button of the self-contained page *)

(** X19: one click on Copy, unless the copy command throws, shows
    "Copied!" with the check icon whether or not the command reported
    success (a refused copy leaves the clipboard as it was, an accepted
    one puts the code area's text on it); when the timer fires, the label
    the button had before the click is back and the icon is the clipboard
    icon. A command that throws changes nothing. *)
Theorem copy_label_is_restored
    (page : Standalone.State) (b : StandaloneCopy.CopyButton)
    (outcome : StandaloneCopy.ExecCommand) :
  StandaloneCopy.restore b = [] ->
  outcome <> StandaloneCopy.Threw ->
  (exists b1,
     StandaloneCopy.step page b (StandaloneCopy.Click outcome) = Some b1
     /\ StandaloneCopy.span b1 = "Copied!"
     /\ StandaloneCopy.svg b1 = StandaloneCopy.checkIcon
     /\ StandaloneCopy.clipboard b1
        = match outcome with
          | StandaloneCopy.Copied => Some (Standalone.svgCode page)
          | _ => StandaloneCopy.clipboard b
          end)
  /\ (exists b2,
        StandaloneCopy.run page b
          [StandaloneCopy.Click outcome; StandaloneCopy.Timeout] = Some b2
        /\ StandaloneCopy.span b2 = StandaloneCopy.span b
        /\ StandaloneCopy.svg b2 = StandaloneCopy.clipboardIcon
        /\ StandaloneCopy.restore b2 = [])
  /\ StandaloneCopy.step page b (StandaloneCopy.Click StandaloneCopy.Threw)
     = Some b.
Proof.
  intros Hnone Hout. destruct outcome; [| |congruence];
    (split; [eexists; split; [reflexivity|repeat split]|]);
    (split; [|reflexivity]);
    cbn; rewrite Hnone; cbn; eexists; (split; [reflexivity|repeat split]).
Qed.

(** X20: a second click before the first timer has fired captures
    "Copied!" as the label to put back: once both timers have fired the
    button reads "Copied!" for good, since no timer is left to restore
    the label it had at first. *)
Theorem copy_label_sticks_after_two_clicks
    (page : Standalone.State) (b : StandaloneCopy.CopyButton)
    (o1 o2 : StandaloneCopy.ExecCommand) :
  StandaloneCopy.restore b = [] ->
  o1 <> StandaloneCopy.Threw ->
  o2 <> StandaloneCopy.Threw ->
  exists b',
    StandaloneCopy.run page b
      [StandaloneCopy.Click o1; StandaloneCopy.Click o2;
       StandaloneCopy.Timeout; StandaloneCopy.Timeout] = Some b'
    /\ StandaloneCopy.span b' = "Copied!"
    /\ StandaloneCopy.restore b' = []
    /\ StandaloneCopy.step page b' StandaloneCopy.Timeout = None.
Proof.
  intros Hnone H1 H2.
  destruct o1; [| |congruence]; (destruct o2; [| |congruence]);
    cbn; rewrite Hnone; cbn; eexists; (split; [reflexivity|repeat split]).
Qed.

Lemma copy_label_is_restored_witness :
  let b := {| StandaloneCopy.span := "Copy";
              StandaloneCopy.svg := StandaloneCopy.clipboardIcon;
              StandaloneCopy.restore := [];
              StandaloneCopy.clipboard := None |} in
  exists b2,
    StandaloneCopy.run (Standalone.loaded ∅ ∅) b
      [StandaloneCopy.Click StandaloneCopy.Refused; StandaloneCopy.Timeout]
    = Some b2
    /\ StandaloneCopy.span b2 = "Copy".
Proof.
  intros b.
  destruct (copy_label_is_restored (Standalone.loaded ∅ ∅) b
              StandaloneCopy.Refused) as (_ & (b2 & Hrun & Hspan & _) & _).
  - reflexivity.
  - discriminate.
  - exists b2. split; assumption.
Defined.

Lemma copy_label_sticks_after_two_clicks_witness :
  let b := {| StandaloneCopy.span := "Copy";
              StandaloneCopy.svg := StandaloneCopy.clipboardIcon;
              StandaloneCopy.restore := [];
              StandaloneCopy.clipboard := None |} in
  exists b',
    StandaloneCopy.run (Standalone.loaded ∅ ∅) b
      [StandaloneCopy.Click StandaloneCopy.Copied;
       StandaloneCopy.Click StandaloneCopy.Copied;
       StandaloneCopy.Timeout; StandaloneCopy.Timeout] = Some b'
    /\ StandaloneCopy.span b' = "Copied!".
Proof.
  intros b.
  destruct (copy_label_sticks_after_two_clicks (Standalone.loaded ∅ ∅) b
              StandaloneCopy.Copied StandaloneCopy.Copied)
    as (b' & Hrun & Hspan & _).
  - reflexivity.
  - discriminate.
  - discriminate.
  - exists b'. split; assumption.
Defined.

(** ** Settling the theme *)

(** X22: whatever was stored and whatever the icons showed, one click on
    the toggle leaves the theme settled in both scripts: the stored entry
    is [dark] exactly when the root has the [dark] class, and the icons
    are as [updateThemeIcons] sets them for that class. *)
Theorem one_click_settles_theme (t : Shared.Theme) (u : Standalone.Theme) :
  themeSettled (Shared.themeToggle_click t)
  /\ themeSettled_standalone (Standalone.themeToggle_click u)
  /\ classList_contains "dark"
       (Shared.documentElement (Shared.themeToggle_click t))
     = negb (classList_contains "dark" (Shared.documentElement t))
  /\ classList_contains "dark"
       (Standalone.documentElement (Standalone.themeToggle_click u))
     = negb (classList_contains "dark" (Standalone.documentElement u)).
Proof.
  split; [apply toggle_settles|]. split; [apply toggle_settles_standalone|].
  split.
  - destruct t as [root dark light store].
    cbn [Shared.documentElement].
    destruct (classList_contains "dark" root) eqn:E.
    + rewrite (click_when_dark _ _ _ _ E). unfold Shared.updateThemeIcons.
      cbn [Shared.themeToggleDarkIcon Shared.themeToggleLightIcon].
      destruct dark, light; cbn [Shared.documentElement];
        apply contains_remove.
    + rewrite (click_when_light _ _ _ _ E). unfold Shared.updateThemeIcons.
      cbn [Shared.themeToggleDarkIcon Shared.themeToggleLightIcon].
      destruct dark, light; cbn [Shared.documentElement];
        apply contains_add.
  - destruct u as [root dark light store].
    cbn [Standalone.documentElement].
    destruct (classList_contains "dark" root) eqn:E.
    + rewrite (standalone_click_when_dark _ _ _ _ E).
      apply contains_remove.
    + rewrite (standalone_click_when_light _ _ _ _ E).
      apply contains_add.
Qed.

(** ** The SVG page invariant, at a concrete run *)

